(** * Offline address database builder: classification and indexing pipeline

    A shallow embedding of [tools/build_state_db.py]: the tag classifier
    ([PlaceHandler._get_place_type], the category loop of
    [PlaceHandler._extract_poi]), the display-name composer
    ([PlaceHandler._build_display_name]), the record extractor
    ([PlaceHandler._extract_place], [_extract_poi], [node], [way]) and the
    index builder ([create_database]), followed by the properties of the
    specification that concern them.

    Conventions of the embedding.
    - A Python [str] is a [string]; one [ascii] stands for one code point
      below 256.
    - A value that is either [None] or a [str] (the result of [dict.get]
      without a default) is an [option string].
    - A tag mapping ([dict(obj.tags)]) is a [gmap string string].
    - Python exceptions are the [Raise] outcomes of [result]; the handlers
      run in a state-and-exception monad over the handler object. *)

From Stdlib Require Import Ascii String ZArith QArith.
From stdpp Require Import base option list strings gmap pretty sorting.

Close Scope Q_scope.

(** ** Python values *)

Module Py.

(** Truth value of an [Optional[str]]: [None] and the empty string are
    falsy. *)
Definition truthy (v : option string) : bool :=
  match v with
  | Some s => negb (String.eqb s EmptyString)
  | None => false
  end.

(** [str(v)], as an f-string placeholder formats it. *)
Definition str (v : option string) : string :=
  match v with
  | Some s => s
  | None => "None"
  end.

(** [v or d], for a string [d]. *)
Definition or (v : option string) (d : string) : string :=
  if truthy v then str v else d.

(** [v in (s1, ..., sn)]. *)
Definition In (v : option string) (l : list string) : bool :=
  match v with
  | Some s => bool_decide (s ∈ l)
  | None => false
  end.

(** [tags.get(k, d)]. *)
Definition get (tags : gmap string string) (k : string) (d : string) : string :=
  default d (tags !! k).

(** [str.isspace] on the code points below 256. *)
Definition isspace (c : ascii) : bool :=
  let n := N_of_ascii c in
  ((9 <=? n) && (n <=? 13) || (28 <=? n) && (n <=? 32)
   || (n =? 133) || (n =? 160))%N.

Fixpoint lstrip (s : string) : string :=
  match s with
  | String c s' => if isspace c then lstrip s' else s
  | EmptyString => EmptyString
  end.

Definition rstrip (s : string) : string :=
  String.rev (lstrip (String.rev s)).

(** [s.strip()]. *)
Definition strip (s : string) : string := rstrip (lstrip s).

(** [sep.join(parts)]. *)
Definition join (sep : string) (parts : list string) : string :=
  String.concat sep parts.

(** Truth value of a list: empty lists are falsy. *)
Definition nonempty {A} (l : list A) : bool :=
  match l with
  | [] => false
  | _ :: _ => true
  end.

End Py.

(** ** Classifier *)

Abbreviation Tags := (gmap string string).

(** The tuple of place values in [_get_place_type]. *)
Definition PLACE_VALUES : list string :=
  ["city"; "town"; "village"; "hamlet"; "suburb"; "neighbourhood"; "locality"].

(** [PlaceHandler._get_place_type]. *)
Definition _get_place_type (tags : Tags) : option string :=
  let place := tags !! "place" in
  if Py.In place PLACE_VALUES then place else
  let amenity := tags !! "amenity" in
  if Py.truthy amenity then amenity else
  let shop := tags !! "shop" in
  if Py.truthy shop then Some ("shop_" +:+ Py.str shop) else
  let tourism := tags !! "tourism" in
  if Py.truthy tourism then tourism else
  if Py.truthy (tags !! "addr:street") && Py.truthy (tags !! "addr:housenumber") then
    let building := tags !! "building" in
    if Py.truthy building then
      Some (if bool_decide (building ≠ Some "yes")
            then "building_" +:+ Py.str building
            else "building")
    else Some "address"
  else
  let leisure := tags !! "leisure" in
  if Py.truthy leisure then leisure else
  let office := tags !! "office" in
  if Py.truthy office then Some ("office_" +:+ Py.str office) else
  let aeroway := tags !! "aeroway" in
  if Py.truthy aeroway then aeroway else
  let railway := tags !! "railway" in
  if Py.truthy railway then railway else
  if Py.truthy (tags !! "name") then
    let landuse := tags !! "landuse" in
    if Py.truthy landuse then landuse else None
  else None.

(** The dictionary literal [POI_CATEGORIES], in source order. *)
Definition POI_CATEGORIES : list (string * (string * string)) :=
  [ ("HOSPITAL", ("amenity", "hospital"));
    ("PHARMACY", ("amenity", "pharmacy"));
    ("DENTIST", ("amenity", "dentist"));
    ("DOCTOR", ("amenity", "doctors"));
    ("CLINIC", ("amenity", "clinic"));
    ("VETERINARIAN", ("amenity", "veterinary"));
    ("FIRE_STATION", ("amenity", "fire_station"));
    ("POLICE_STATION", ("amenity", "police"));
    ("AIRPORT", ("aeroway", "aerodrome"));
    ("HELIPORT", ("aeroway", "helipad"));
    ("RAILWAY_STATION", ("railway", "station"));
    ("FERRY_TERMINAL", ("amenity", "ferry_terminal"));
    ("PARKING", ("amenity", "parking"));
    ("GAS_STATION", ("amenity", "fuel"));
    ("CAR_WASH", ("amenity", "car_wash"));
    ("BANK", ("amenity", "bank"));
    ("ATM", ("amenity", "atm"));
    ("SCHOOL", ("amenity", "school"));
    ("RESTAURANT", ("amenity", "restaurant"));
    ("HOTEL", ("tourism", "hotel"));
    ("CAFE", ("amenity", "cafe"));
    ("FAST_FOOD", ("amenity", "fast_food"));
    ("BAR", ("amenity", "bar"));
    ("PUB", ("amenity", "pub"));
    ("SUPERMARKET", ("shop", "supermarket"));
    ("CONVENIENCE_STORE", ("shop", "convenience"));
    ("SHOPPING_MALL", ("shop", "mall"));
    ("HARDWARE_STORE", ("shop", "hardware"));
    ("LAUNDRY", ("shop", "laundry"));
    ("HAIR_SALON", ("shop", "hairdresser"));
    ("CINEMA", ("amenity", "cinema"));
    ("GYM", ("leisure", "fitness_centre"));
    ("CEMETERY", ("landuse", "cemetery"));
    ("GRAVE_YARD", ("amenity", "grave_yard"));
    ("SURVEILLANCE", ("man_made", "surveillance"));
    ("EMBASSY", ("amenity", "embassy"));
    ("GOVERNMENT", ("office", "government"));
    ("PRISON", ("amenity", "prison"));
    ("COMM_TOWER", ("man_made", "tower"));
    ("CELL_TOWER", ("man_made", "mast"));
    ("POWER_STATION", ("power", "plant"));
    ("WATER_TOWER", ("man_made", "water_tower"));
    ("POST_OFFICE", ("amenity", "post_office"));
    ("PLACE_OF_WORSHIP", ("amenity", "place_of_worship"));
    ("LIBRARY", ("amenity", "library")) ].

(** An insertion-ordered dictionary as an association list: assigning to a
    key that is already there replaces its value in place, a new key goes
    to the end. *)
Fixpoint dict_set {K V} `{EqDecision K} (k : K) (v : V) (d : list (K * V))
  : list (K * V) :=
  match d with
  | [] => [(k, v)]
  | (k', v') :: d' =>
      if decide (k = k') then (k, v) :: d' else (k', v') :: dict_set k v d'
  end.

(** [POI_TAG_TO_CATEGORY = {v: k for k, v in POI_CATEGORIES.items()}]. *)
Definition POI_TAG_TO_CATEGORY : list ((string * string) * string) :=
  fold_left (λ d '(k, v), dict_set v k d) POI_CATEGORIES [].

(** The category loop of [PlaceHandler._extract_poi]: the first item of the
    dictionary whose tag is on the entity with exactly that value. *)
Fixpoint poi_category_loop (items : list ((string * string) * string))
    (tags : Tags) : option string :=
  match items with
  | [] => None
  | ((osm_key, osm_value), category) :: rest =>
      if bool_decide (tags !! osm_key = Some osm_value)
      then Some category
      else poi_category_loop rest tags
  end.

(** The value of [poi_category] after the loop of [_extract_poi]. *)
Definition poi_category (tags : Tags) : option string :=
  poi_category_loop POI_TAG_TO_CATEGORY tags.

(** ** Display-name composer *)

(** [PlaceHandler._build_display_name]; [region_name] is
    [self.region_name]. *)
Definition _build_display_name (region_name : string) (tags : Tags)
    (name : option string) : string :=
  let parts := [] in
  let parts := if Py.truthy name then parts ++ [Py.str name] else parts in
  let street := tags !! "addr:street" in
  let housenumber := tags !! "addr:housenumber" in
  let parts :=
    if Py.truthy street then
      if Py.truthy housenumber
      then parts ++ [Py.str housenumber +:+ " " +:+ Py.str street]
      else if negb (Py.truthy name) then parts ++ [Py.str street] else parts
    else parts in
  let city := tags !! "addr:city" in
  let parts := if Py.truthy city then parts ++ [Py.str city] else parts in
  let state := tags !! "addr:state" in
  let parts := if Py.truthy state then parts ++ [Py.str state] else parts in
  let country := tags !! "addr:country" in
  let parts := if Py.truthy country then parts ++ [Py.str country] else parts in
  let postcode := tags !! "addr:postcode" in
  let parts := if Py.truthy postcode then parts ++ [Py.str postcode] else parts in
  if Py.nonempty parts then Py.join ", " parts else region_name.

(** ** Exceptions *)

Inductive Exception : Type :=
  | InvalidLocationError
  | KeyError (key : string)
  | IntegrityError (msg : string)
  | RuntimeError (msg : string).

(** The outcome of a Python expression that may raise. *)
Inductive result (A : Type) : Type :=
  | Ok (a : A)
  | Raise (e : Exception).
Arguments Ok {A} a.
Arguments Raise {A} e.

Global Instance result_ret : MRet result := λ A a, Ok a.
Global Instance result_bind : MBind result := λ A B k r,
  match r with
  | Ok a => k a
  | Raise e => Raise e
  end.

(** [tags[k]]. *)
Definition tags_index (tags : Tags) (k : string) : result string :=
  match tags !! k with
  | Some v => Ok v
  | None => Raise (KeyError k)
  end.

(** ** Numbers of the coordinates

    Latitudes and longitudes are Python floats. The embedding is generic in
    them: it needs the conversion of an [int], addition and true division,
    which is all that [sum(xs) / len(xs)] uses. *)

Class PyFloat : Type := {
  float : Type;
  float_of_int : Z → float;
  float_add : float → float → float;
  float_div : float → float → float;
}.

(** Exact rationals, to run the embedding on concrete coordinates. *)
Definition Q_float : PyFloat := {|
  float := Q;
  float_of_int := inject_Z;
  float_add := Qplus;
  float_div := Qdiv;
|}.

Section Extractor.
Context `{PyFloat}.

(** [sum(xs)]: the items are added to the integer [0] from left to right. *)
Definition py_sum (xs : list float) : float :=
  fold_left float_add xs (float_of_int 0).

(** [sum(xs) / len(xs)]. *)
Definition mean (xs : list float) : float :=
  float_div (py_sum xs) (float_of_int (Z.of_nat (length xs))).

(** ** Entities of the decoder

    A location answers [valid()]; reading [lat] or [lon] of an invalid
    location raises. The tags of an entity are the outcome of
    [dict(obj.tags)], which is a mapping unless the decoder raises. *)

Record Location : Type := {
  loc_valid : bool;
  loc_lat : float;
  loc_lon : float;
}.

Definition Location_lat (l : Location) : result float :=
  if loc_valid l then Ok (loc_lat l) else Raise InvalidLocationError.

Definition Location_lon (l : Location) : result float :=
  if loc_valid l then Ok (loc_lon l) else Raise InvalidLocationError.

Record NodeRef : Type := {
  nr_ref : Z;
  nr_location : Location;
}.

Record Node : Type := {
  n_id : Z;
  n_location : Location;
  n_tags : result Tags;
}.

Record Way : Type := {
  w_id : Z;
  w_nodes : list NodeRef;
  w_tags : result Tags;
}.

(** The [obj] argument of the extraction methods. *)
Inductive OSMObject : Type :=
  | NodeObj (n : Node)
  | WayObj (w : Way).

Definition obj_id (obj : OSMObject) : Z :=
  match obj with
  | NodeObj n => n_id n
  | WayObj w => w_id w
  end.

Definition obj_tags (obj : OSMObject) : result Tags :=
  match obj with
  | NodeObj n => n_tags n
  | WayObj w => w_tags w
  end.

(** [hasattr(obj, 'location')]. *)
Definition obj_has_location (obj : OSMObject) : bool :=
  match obj with
  | NodeObj _ => true
  | WayObj _ => false
  end.

(** ** Records *)

Record Place : Type := {
  place_osm_id : Z;
  place_osm_type : string;
  place_lat : float;
  place_lon : float;
  place_name : string;
  place_display_name : string;
  place_type : string;
  place_street : string;
  place_housenumber : string;
  place_city : string;
  place_postcode : string;
  place_state : string;
  place_country : string;
}.

Record POI : Type := {
  poi_osm_id : Z;
  poi_osm_type : string;
  poi_lat : float;
  poi_lon : float;
  poi_name : string;
  poi_category_ : string;
  poi_address : string;
  poi_phone : string;
  poi_website : string;
  poi_opening_hours : string;
}.

(** [place['osm_type'] = t]. *)
Definition place_set_osm_type (t : string) (p : Place) : Place :=
  {| place_osm_id := place_osm_id p; place_osm_type := t;
     place_lat := place_lat p; place_lon := place_lon p;
     place_name := place_name p; place_display_name := place_display_name p;
     place_type := place_type p; place_street := place_street p;
     place_housenumber := place_housenumber p; place_city := place_city p;
     place_postcode := place_postcode p; place_state := place_state p;
     place_country := place_country p |}.

(** [poi['osm_type'] = t]. *)
Definition poi_set_osm_type (t : string) (p : POI) : POI :=
  {| poi_osm_id := poi_osm_id p; poi_osm_type := t;
     poi_lat := poi_lat p; poi_lon := poi_lon p;
     poi_name := poi_name p; poi_category_ := poi_category_ p;
     poi_address := poi_address p; poi_phone := poi_phone p;
     poi_website := poi_website p; poi_opening_hours := poi_opening_hours p |}.

(** ** Record extractor *)

(** The handler object; [printed] collects the progress lines it has
    written to the standard output. *)
Record PlaceHandler : Type := {
  places : list Place;
  pois : list POI;
  region_name : string;
  place_count : Z;
  poi_count : Z;
  printed : list string;
}.

(** [PlaceHandler.__init__]. *)
Definition PlaceHandler_init (region_name : string) : PlaceHandler :=
  {| places := []; pois := []; region_name := region_name;
     place_count := 0; poi_count := 0; printed := [] |}.

(** [PlaceHandler._extract_place]. *)
Definition _extract_place (self : PlaceHandler) (obj : OSMObject)
    (lat lon : float) : result (option Place) :=
  tags ← obj_tags obj;
  let name := tags !! "name" in
  let addr_street := tags !! "addr:street" in
  let addr_housenumber := tags !! "addr:housenumber" in
  if negb (Py.truthy name) && negb (Py.truthy addr_street) then mret None else
  let place_type := _get_place_type tags in
  if negb (Py.truthy place_type) then mret None else
  let display_name := _build_display_name (region_name self) tags name in
  let short_name :=
    Py.or name
      (Py.strip (Py.str addr_housenumber +:+ " " +:+ Py.str addr_street)) in
  mret (Some
    {| place_osm_id := obj_id obj;
       place_osm_type := if obj_has_location obj then "node" else "way";
       place_lat := lat;
       place_lon := lon;
       place_name := short_name;
       place_display_name := display_name;
       place_type := Py.str place_type;
       place_street := Py.or addr_street EmptyString;
       place_housenumber := Py.or addr_housenumber EmptyString;
       place_city := Py.get tags "addr:city" EmptyString;
       place_postcode := Py.get tags "addr:postcode" EmptyString;
       place_state := Py.get tags "addr:state" (region_name self);
       place_country := Py.get tags "addr:country" EmptyString |}).

(** [PlaceHandler._extract_poi]. *)
Definition _extract_poi (obj : OSMObject) (lat lon : float)
    : result (option POI) :=
  tags ← obj_tags obj;
  let poi_category := poi_category tags in
  if negb (Py.truthy poi_category) then mret None else
  let name := Py.get tags "name" EmptyString in
  let addr_parts := [] in
  addr_parts ←
    (if Py.truthy (tags !! "addr:housenumber")
     then v ← tags_index tags "addr:housenumber"; mret (addr_parts ++ [v])
     else mret addr_parts);
  addr_parts ←
    (if Py.truthy (tags !! "addr:street")
     then v ← tags_index tags "addr:street"; mret (addr_parts ++ [v])
     else mret addr_parts);
  addr_parts ←
    (if Py.truthy (tags !! "addr:city")
     then v ← tags_index tags "addr:city"; mret (addr_parts ++ [v])
     else mret addr_parts);
  addr_parts ←
    (if Py.truthy (tags !! "addr:postcode")
     then v ← tags_index tags "addr:postcode"; mret (addr_parts ++ [v])
     else mret addr_parts);
  let address :=
    if Py.nonempty addr_parts then Py.join ", " addr_parts else EmptyString in
  mret (Some
    {| poi_osm_id := obj_id obj;
       poi_osm_type := if obj_has_location obj then "node" else "way";
       poi_lat := lat;
       poi_lon := lon;
       poi_name := name;
       poi_category_ := Py.str poi_category;
       poi_address := address;
       poi_phone := Py.get tags "phone" (Py.get tags "contact:phone" EmptyString);
       poi_website :=
         Py.get tags "website" (Py.get tags "contact:website" EmptyString);
       poi_opening_hours := Py.get tags "opening_hours" EmptyString |}).

(** ** The handler monad

    A handler method runs on the handler object and either returns or
    raises; the object keeps the updates made before an exception. *)

Definition M (A : Type) : Type := PlaceHandler → result A * PlaceHandler.

Global Instance M_ret : MRet M := λ A a self, (Ok a, self).
Global Instance M_bind : MBind M := λ A B k m self,
  match m self with
  | (Ok a, self') => k a self'
  | (Raise e, self') => (Raise e, self')
  end.

(** An expression that may raise, evaluated inside a method. *)
Definition lift {A} (r : result A) : M A := λ self, (r, self).

(** Reading and updating the attributes of [self]. *)
Definition get_self : M PlaceHandler := λ self, (Ok self, self).
Definition modify (f : PlaceHandler → PlaceHandler) : M unit :=
  λ self, (Ok tt, f self).

(** [try: body  except Exception: handler]. *)
Definition try_except {A} (body : M A) (handler : Exception → M A) : M A :=
  λ self,
    match body self with
    | (Ok a, self') => (Ok a, self')
    | (Raise e, self') => handler e self'
    end.

(** Assignments to the attributes of [self]. *)
Definition set_places (v : list Place) (self : PlaceHandler) : PlaceHandler :=
  {| places := v; pois := pois self; region_name := region_name self;
     place_count := place_count self; poi_count := poi_count self;
     printed := printed self |}.

Definition set_pois (v : list POI) (self : PlaceHandler) : PlaceHandler :=
  {| places := places self; pois := v; region_name := region_name self;
     place_count := place_count self; poi_count := poi_count self;
     printed := printed self |}.

Definition set_place_count (v : Z) (self : PlaceHandler) : PlaceHandler :=
  {| places := places self; pois := pois self; region_name := region_name self;
     place_count := v; poi_count := poi_count self;
     printed := printed self |}.

Definition set_poi_count (v : Z) (self : PlaceHandler) : PlaceHandler :=
  {| places := places self; pois := pois self; region_name := region_name self;
     place_count := place_count self; poi_count := v;
     printed := printed self |}.

(** [print(line)]. *)
Definition print (line : string) : M unit :=
  modify (λ self,
    {| places := places self; pois := pois self;
       region_name := region_name self;
       place_count := place_count self; poi_count := poi_count self;
       printed := printed self ++ [line] |}).

(** The statements under [if place:] of [node] and [way]. *)
Definition record_place (place : Place) : M unit :=
  modify (λ self, set_places (places self ++ [place]) self);;
  modify (λ self, set_place_count (place_count self + 1) self);;
  self ← get_self;
  if (place_count self `mod` 50000 =? 0)%Z
  then print ("  Processed " +:+ pretty (place_count self) +:+ " places...")
  else mret tt.

(** The statements under [if poi:] of [node] and [way]. *)
Definition record_poi (poi : POI) : M unit :=
  modify (λ self, set_pois (pois self ++ [poi]) self);;
  modify (λ self, set_poi_count (poi_count self + 1) self).

(** [PlaceHandler.node]. *)
Definition node (n : Node) : M unit :=
  if negb (loc_valid (n_location n)) then mret tt else
  lat ← lift (Location_lat (n_location n));
  lon ← lift (Location_lon (n_location n));
  self ← get_self;
  place ← lift (_extract_place self (NodeObj n) lat lon);
  match place with
  | Some place => record_place place
  | None => mret tt
  end;;
  poi ← lift (_extract_poi (NodeObj n) lat lon);
  match poi with
  | Some poi => record_poi poi
  | None => mret tt
  end.

(** The vertex loop of [PlaceHandler.way]: the coordinates of the
    vertices whose location is valid, in order. *)
Fixpoint way_vertices (nodes : list NodeRef) (lats lons : list float)
    : result (list float * list float) :=
  match nodes with
  | [] => mret (lats, lons)
  | node :: rest =>
      if loc_valid (nr_location node) then
        lat ← Location_lat (nr_location node);
        lon ← Location_lon (nr_location node);
        way_vertices rest (lats ++ [lat]) (lons ++ [lon])
      else way_vertices rest lats lons
  end.

(** The body of the [try] of [PlaceHandler.way]. *)
Definition way_body (w : Way) : M unit :=
  '(lats, lons) ← lift (way_vertices (w_nodes w) [] []);
  if negb (Py.nonempty lats) then mret tt else
  let lat := mean lats in
  let lon := mean lons in
  self ← get_self;
  place ← lift (_extract_place self (WayObj w) lat lon);
  match place with
  | Some place => record_place (place_set_osm_type "way" place)
  | None => mret tt
  end;;
  poi ← lift (_extract_poi (WayObj w) lat lon);
  match poi with
  | Some poi => record_poi (poi_set_osm_type "way" poi)
  | None => mret tt
  end.

(** [PlaceHandler.way]. *)
Definition way (w : Way) : M unit :=
  try_except (way_body w) (λ _, mret tt).

(** [handler.node(n)] or [handler.way(w)], as the decoder's driver calls
    them. *)
Definition handle (obj : OSMObject) : M unit :=
  match obj with
  | NodeObj n => node n
  | WayObj w => way w
  end.

(** The decoder's driver ([handler.apply_file]): it calls the handler's
    method for each entity of the stream in turn, and an exception that
    leaves a method ends the run. *)
Fixpoint apply_file (entities : list OSMObject) : M unit :=
  match entities with
  | [] => mret tt
  | obj :: rest => handle obj;; apply_file rest
  end.

(** ** Index builder *)

(** The persisted store: the two relations with their assigned
    identifiers, the text index, the spatial index and the metadata
    relation. The spatial index is kept as the list of the identifiers it
    holds: the box that SQLite stores for an identifier is derived from
    [(lat, lat, lon, lon)] by rounding to 32-bit values, the minima down
    and the maxima up, and is outside the embedding. Secondary indexes,
    [VACUUM] and [ANALYZE] do not change the content of the relations;
    console output and the file system are outside the embedding. *)
Record Store : Type := {
  places_table : list (Z * Place);
  places_fts : list (Z * (string * string * string * string * string));
  pois_table : list (Z * POI);
  pois_rtree : list Z;
  metadata : list (string * string);
}.

(** The identifier an [INTEGER PRIMARY KEY] column gets when none is
    given: one more than the largest in the table. *)
Definition next_rowid {A} (table : list (Z * A)) : Z :=
  (1 + foldr Z.max 0 (table.*1))%Z.

Definition insert_row {A} (table : list (Z * A)) (row : A) : list (Z * A) :=
  table ++ [(next_rowid table, row)].

(** [cursor.executemany('INSERT ...', rows)]. *)
Definition executemany_insert {A} (table : list (Z * A)) (rows : list A)
    : list (Z * A) :=
  fold_left insert_row rows table.

(** [INSERT INTO metadata VALUES (key, value)]; [key] is the primary key. *)
Definition metadata_insert (md : list (string * string)) (key value : string)
    : result (list (string * string)) :=
  if bool_decide (key ∈ md.*1)
  then Raise (IntegrityError "UNIQUE constraint failed: metadata.key")
  else Ok (md ++ [(key, value)]).

(** [SELECT value FROM metadata WHERE key = ?]. *)
Definition metadata_get (md : list (string * string)) (key : string)
    : option string :=
  (λ r, r.2.2) <$> list_find (λ kv, kv.1 = key) md.

(** [create_database]: a file that is already at the output path is
    removed first, so the tables start empty; [now] is
    [datetime.datetime.now().isoformat()]. *)
Definition create_database (places : list Place) (pois : list POI)
    (region_name : string) (now : string) : result Store :=
  let places_table := executemany_insert [] places in
  let places_fts :=
    (λ r : Z * Place,
       (r.1, (place_name r.2, place_display_name r.2, place_street r.2,
              place_city r.2, place_postcode r.2))) <$> places_table in
  let pois_table := executemany_insert [] pois in
  let pois_rtree := (λ r : Z * POI, r.1) <$> pois_table in
  let metadata := [] in
  metadata ← metadata_insert metadata "created" now;
  metadata ← metadata_insert metadata "place_count" (pretty (length places));
  metadata ← metadata_insert metadata "poi_count" (pretty (length pois));
  metadata ← metadata_insert metadata "region" region_name;
  metadata ← metadata_insert metadata "schema_version" "2";
  mret {| places_table := places_table; places_fts := places_fts;
          pois_table := pois_table; pois_rtree := pois_rtree;
          metadata := metadata |}.

(** [build_database] without its console report: extraction over the
    entity stream, then the store. *)
Definition build_database (entities : list OSMObject) (region_name : string)
    (now : string) : result Store :=
  let handler := PlaceHandler_init region_name in
  match apply_file entities handler with
  | (Ok _, handler) =>
      create_database (places handler) (pois handler) region_name now
  | (Raise e, _) => Raise e
  end.

(** ** Derived descriptions, used to state and prove the properties *)

(** The locations of the vertices of a way that are valid, in order. *)
Definition valid_vertices (w : Way) : list Location :=
  List.filter loc_valid (nr_location <$> w_nodes w).

Definition is_Ok {A} (r : result A) : bool :=
  match r with
  | Ok _ => true
  | Raise _ => false
  end.

(** An entity on which the handler cannot fault outside a [try]: a way, a
    node with an invalid location, or a node with readable tags. *)
Definition entity_readable (obj : OSMObject) : bool :=
  match obj with
  | NodeObj n => negb (loc_valid (n_location n)) || is_Ok (n_tags n)
  | WayObj _ => true
  end.

(** The handler after the statements under [if place:] and [if poi:]. *)
Definition after_place (place : option Place) (self : PlaceHandler)
    : PlaceHandler :=
  match place with
  | Some p => (record_place p self).2
  | None => self
  end.

Definition after_poi (poi : option POI) (self : PlaceHandler)
    : PlaceHandler :=
  match poi with
  | Some q => (record_poi q self).2
  | None => self
  end.

(** What the two extraction steps shared by [node] and [way] do to the
    handler, [fp] and [fq] being the change made to a record before it is
    stored. *)
Definition extraction_steps (obj : OSMObject) (lat lon : float)
    (fp : Place → Place) (fq : POI → POI) (self : PlaceHandler)
    : result unit * PlaceHandler :=
  match _extract_place self obj lat lon with
  | Raise e => (Raise e, self)
  | Ok place =>
      let self1 := after_place (fp <$> place) self in
      match _extract_poi obj lat lon with
      | Raise e => (Raise e, self1)
      | Ok poi => (Ok tt, after_poi (fq <$> poi) self1)
      end
  end.

End Extractor.

(** ** The specification's wording, for comparison with the code *)

(** The components of a display name as the specification lists them: the
    street component only when the name is absent. *)
Definition display_components_as_stated (tags : Tags) (name : option string)
    : list string :=
  let component (v : option string) : list string :=
    if Py.truthy v then [Py.str v] else [] in
  let street := tags !! "addr:street" in
  let housenumber := tags !! "addr:housenumber" in
  component name
  ++ (if Py.truthy name then []
      else if Py.truthy street then
        if Py.truthy housenumber
        then [Py.str housenumber +:+ " " +:+ Py.str street]
        else [Py.str street]
      else [])
  ++ component (tags !! "addr:city")
  ++ component (tags !! "addr:state")
  ++ component (tags !! "addr:country")
  ++ component (tags !! "addr:postcode").

(** The street component the code produces: with a house number it is
    shown whether or not there is a name, the bare street only without a
    name. *)
Definition street_component (tags : Tags) (name : option string)
    : option string :=
  match tags !! "addr:street" with
  | Some street =>
      if String.eqb street EmptyString then None else
      match tags !! "addr:housenumber" with
      | Some (String c hn) => Some (String c hn +:+ " " +:+ street)
      | _ => if Py.truthy name then None else Some street
      end
  | None => None
  end.

(** A component is listed when it has a non-empty value. *)
Definition component (v : option string) : option string :=
  match v with
  | Some (String c s) => Some (String c s)
  | _ => None
  end.

Definition display_components (tags : Tags) (name : option string)
    : list string :=
  omap id
    [ component name; street_component tags name;
      component (tags !! "addr:city"); component (tags !! "addr:state");
      component (tags !! "addr:country"); component (tags !! "addr:postcode") ].

(** Rule 5 of the place-type resolution with "present" read as "the key
    is in the mapping". *)
Definition rule5_as_stated (tags : Tags) : Prop :=
  Py.In (tags !! "place") PLACE_VALUES = false →
  tags !! "amenity" = None → tags !! "shop" = None →
  tags !! "tourism" = None →
  is_Some (tags !! "addr:street") → is_Some (tags !! "addr:housenumber") →
  _get_place_type tags =
    match tags !! "building" with
    | Some v =>
        if bool_decide (v = "yes") then Some "building"
        else Some ("building_" +:+ v)
    | None => Some "address"
    end.

(** A string with a character that [strip] keeps. *)
Definition has_nonspace (s : string) : Prop :=
  ∃ c, c ∈ list_ascii_of_string s ∧ Py.isspace c = false.


(** ** The report of [build_database] and the queries on the store *)

(** The keys that [_get_place_type] looks up. *)
Definition PLACE_TYPE_KEYS : list string :=
  [ "place"; "amenity"; "shop"; "tourism"; "addr:street";
    "addr:housenumber"; "building"; "leisure"; "office"; "aeroway";
    "railway"; "name"; "landuse" ].

(** [d.get(k, default)] on an insertion-ordered dictionary. *)
Fixpoint dict_get {K V} `{EqDecision K} (d : list (K * V)) (k : K)
    (default : V) : V :=
  match d with
  | [] => default
  | (k', v) :: d' => if decide (k = k') then v else dict_get d' k default
  end.

(** [counts[t] = counts.get(t, 0) + 1]. *)
Definition count_step (counts : list (string * Z)) (t : string)
    : list (string * Z) :=
  dict_set t (dict_get counts t 0 + 1)%Z counts.

(** [sorted(items, key=lambda x: -x[1])]: the stable sort by decreasing
    count. An item is put in front of the first item of the sorted rest
    whose count is not larger, so items with equal counts keep their
    order. *)
Fixpoint sorted_insert (x : string * Z) (l : list (string * Z))
    : list (string * Z) :=
  match l with
  | [] => [x]
  | y :: l' =>
      if (- x.2 <=? - y.2)%Z then x :: y :: l' else y :: sorted_insert x l'
  end.

Definition sorted_by_count (items : list (string * Z)) : list (string * Z) :=
  foldr sorted_insert [] items.

(** The order of a report: an item is not behind one with a larger
    count. *)
Definition by_count (x y : string * Z) : Prop := (y.2 ≤ x.2)%Z.

(** [SELECT * FROM table WHERE id = ?], first row. *)
Definition table_get {A} (table : list (Z * A)) (id : Z) : option A :=
  (λ r, r.2.2) <$> list_find (λ r, r.1 = id) table.

Section Report.
Context `{PyFloat}.

(** The dictionary [type_counts] of [build_database] after its loop. *)
Definition type_counts (places : list Place) : list (string * Z) :=
  fold_left (λ counts p, count_step counts (place_type p)) places [].

(** The dictionary [poi_counts] of [build_database] after its loop. *)
Definition poi_counts (pois : list POI) : list (string * Z) :=
  fold_left (λ counts p, count_step counts (poi_category_ p)) pois [].

(** The place types that [build_database] reports, with their counts:
    [sorted(type_counts.items(), key=lambda x: -x[1])[:10]]. *)
Definition top_place_types (places : list Place) : list (string * Z) :=
  take 10 (sorted_by_count (type_counts places)).

(** The POI categories that [build_database] reports, with their counts. *)
Definition reported_poi_categories (pois : list POI) : list (string * Z) :=
  sorted_by_count (poi_counts pois).

(** [obj] as the driver's streams list it: ["node"] or ["way"]. *)
Definition obj_kind (obj : OSMObject) : string :=
  match obj with
  | NodeObj _ => "node"
  | WayObj _ => "way"
  end.

End Report.

(** ** The manifest *)

(** The digits of [int(s)]: decimal digits with single underscores
    between them; [after_digit] tells whether the previous character was a
    digit. *)
Fixpoint int_digits (s : string) (acc : Z) (after_digit : bool) : option Z :=
  match s with
  | EmptyString => if after_digit then Some acc else None
  | String c s' =>
      match Ascii.is_nat c with
      | Some d => int_digits s' (10 * acc + Z.of_nat d)%Z true
      | None =>
          if Ascii.eqb c "_" && after_digit
          then int_digits s' acc false
          else None
      end
  end.

(** The whitespace that [int] skips around a literal, on the code points
    below 256: the ASCII whitespace (9 to 13 and the space), and the two
    others, 133 and 160, that the conversion of a [str] replaces by a
    space. The separators 28 to 31, which [str.strip] removes, are not
    skipped. *)
Definition int_isspace (c : ascii) : bool :=
  let n := N_of_ascii c in
  ((9 <=? n) && (n <=? 13) || (n =? 32) || (n =? 133) || (n =? 160))%N.

Fixpoint int_lstrip (s : string) : string :=
  match s with
  | String c s' => if int_isspace c then int_lstrip s' else s
  | EmptyString => EmptyString
  end.

Definition int_strip (s : string) : string :=
  String.rev (int_lstrip (String.rev (int_lstrip s))).

(** The number of digits of a literal; underscores do not count. *)
Fixpoint count_digits (s : string) : Z :=
  match s with
  | EmptyString => 0
  | String c s' =>
      match Ascii.is_nat c with
      | Some _ => 1 + count_digits s'
      | None => count_digits s'
      end
  end%Z.

(** [sys.int_max_str_digits], at its default. *)
Definition int_max_str_digits : Z := 4300.

(** The literal after the sign: [None] when it has more digits than
    [int] converts, or is no string of digits. *)
Definition int_literal (digits : string) : option Z :=
  if (int_max_str_digits <? count_digits digits)%Z then None
  else int_digits digits 0 false.

(** [int(s)] for a [str]: surrounding whitespace, an optional sign and
    the digits; [None] when [int] raises [ValueError]. *)
Definition py_int (s : string) : option Z :=
  match int_strip s with
  | EmptyString => None
  | String c digits =>
      if Ascii.eqb c "-" then Z.opp <$> int_literal digits
      else if Ascii.eqb c "+" then int_literal digits
      else int_literal (String c digits)
  end.

(** A file of the output directory that [glob("*.db")] lists: the stem and
    the name of its path, its size, and its metadata relation, which is
    [None] when the queries on it raise (the file is no database, or it has
    no such relation). The values of the relation are texts, as
    [create_database] writes them. *)
Record Database : Type := {
  db_stem : string;
  db_filename : string;
  db_size : Z;
  db_metadata : option (list (string * string));
}.

(** An item of the list [regions] of the manifest. *)
Record RegionEntry : Type := {
  entry_id : string;
  entry_name : string;
  entry_size : Z;
  entry_place_count : Z;
  entry_poi_count : Z;
  entry_filename : string;
}.

(** The [try] block in the loop of [build_manifest]: the values of
    [place_count], [poi_count] and [region] when the block is left, by its
    end or by the first exception. *)
Definition read_metadata (stem : string)
    (md : option (list (string * string))) : Z * Z * string :=
  let place_count := 0%Z in
  let poi_count := 0%Z in
  let region := stem in
  match md with
  | None => (place_count, poi_count, region)
  | Some md =>
      match
        match metadata_get md "place_count" with
        | Some value => py_int value
        | None => Some place_count
        end
      with
      | None => (place_count, poi_count, region)
      | Some place_count =>
          match
            match metadata_get md "poi_count" with
            | Some value => py_int value
            | None => Some poi_count
            end
          with
          | None => (place_count, poi_count, region)
          | Some poi_count =>
              let region :=
                match metadata_get md "region" with
                | Some value => value
                | None => region
                end in
              (place_count, poi_count, region)
          end
      end
  end.

(** The body of the loop of [build_manifest]: the item appended to
    [regions] for one database. *)
Definition manifest_region (db : Database) : RegionEntry :=
  let '(place_count, poi_count, region) :=
    read_metadata (db_stem db) (db_metadata db) in
  {| entry_id := db_stem db;
     entry_name := region;
     entry_size := db_size db;
     entry_place_count := place_count;
     entry_poi_count := poi_count;
     entry_filename := db_filename db |}.

(** [sorted(databases)]: the paths are in one directory, so they are
    ordered by their names. A path is put in front of the first path of
    the sorted rest that is not smaller, so the sort is stable. *)
Fixpoint sorted_insert_db (x : Database) (l : list Database) : list Database :=
  match l with
  | [] => [x]
  | y :: l' =>
      if String.leb (db_filename x) (db_filename y)
      then x :: y :: l'
      else y :: sorted_insert_db x l'
  end.

(** The order of the regions of a manifest. *)
Definition by_filename (x y : RegionEntry) : Prop :=
  String.le (entry_filename x) (entry_filename y).

Definition sorted_databases (databases : list Database) : list Database :=
  foldr sorted_insert_db [] databases.

(** The dictionary [manifest] that [build_manifest] writes. *)
Record Manifest : Type := {
  manifest_version : string;
  manifest_schema_version : Z;
  manifest_poi_categories : list string;
  manifest_regions : list RegionEntry;
}.

(** [build_manifest], on the databases that the output directory holds. *)
Definition build_manifest (databases : list Database) : Manifest :=
  {| manifest_version := "2.0";
     manifest_schema_version := 2;
     manifest_poi_categories := POI_CATEGORIES.*1;
     manifest_regions := manifest_region <$> sorted_databases databases |}.

Section ManifestOfStore.
Context `{PyFloat}.

(** The database file that holds a store. *)
Definition database_of (stem : string) (size : Z) (store : Store)
    : Database :=
  {| db_stem := stem; db_filename := stem +:+ ".db"; db_size := size;
     db_metadata := Some (metadata store) |}.

End ManifestOfStore.

(** ** Concrete entities, over exact rational coordinates *)

Section Examples.
Local Existing Instance Q_float.

Definition cafe_tags : Tags :=
  {[ "addr:street" := "Main St"; "addr:housenumber" := "10";
     "amenity" := "cafe" ]}.

(** A cafe with a street and no house number. *)
Definition street_only_tags : Tags :=
  {[ "addr:street" := "Main St"; "amenity" := "cafe" ]}.

(** A cafe whose [name] tag is present with the empty string as value. *)
Definition empty_name_tags : Tags :=
  {[ "name" := EmptyString; "addr:street" := "Main St";
     "addr:housenumber" := "10"; "amenity" := "cafe" ]}.

Definition pharmacy_tags : Tags :=
  {[ "amenity" := "pharmacy"; "shop" := "supermarket";
     "name" := "Corner Pharmacy" ]}.

Definition bench_tags : Tags := {[ "amenity" := "bench" ]}.

Definition point (lat lon : Q) : Location :=
  {| loc_valid := true; loc_lat := lat; loc_lon := lon |}.

Definition missing_point : Location :=
  {| loc_valid := false; loc_lat := 0%Q; loc_lon := 0%Q |}.

Definition node_with (tags : result Tags) : Node :=
  {| n_id := 7; n_location := point (1 # 2) (3 # 4); n_tags := tags |}.

Definition way_with (locations : list Location) (tags : result Tags)
    : Way :=
  {| w_id := 9;
     w_nodes := (λ l, {| nr_ref := 1; nr_location := l |}) <$> locations;
     w_tags := tags |}.

(** The Place that [_extract_place] builds for the node with
    [cafe_tags]. *)
Definition cafe_place : Place :=
  {| place_osm_id := 7; place_osm_type := "node";
     place_lat := (1 # 2)%Q; place_lon := (3 # 4)%Q;
     place_name := "10 Main St"; place_display_name := "10 Main St";
     place_type := "cafe"; place_street := "Main St";
     place_housenumber := "10"; place_city := EmptyString;
     place_postcode := EmptyString; place_state := "Virginia";
     place_country := EmptyString |}.

(** The decoder fails to deliver the tags of an entity. *)
Definition unreadable : result Tags :=
  Raise (RuntimeError "tags cannot be read").

(** The POI that [_extract_poi] builds for the node with [cafe_tags]. *)
Definition cafe_poi : POI :=
  {| poi_osm_id := 7; poi_osm_type := "node";
     poi_lat := (1 # 2)%Q; poi_lon := (3 # 4)%Q;
     poi_name := EmptyString; poi_category_ := "CAFE";
     poi_address := "10, Main St"; poi_phone := EmptyString;
     poi_website := EmptyString; poi_opening_hours := EmptyString |}.

(** The store that [create_database] builds for this Place and this
    POI. *)
Definition cafe_store : Store :=
  {| places_table := [(1%Z, cafe_place)];
     places_fts :=
       [(1%Z, ("10 Main St", "10 Main St", "Main St", EmptyString,
               EmptyString))];
     pois_table := [(1%Z, cafe_poi)];
     pois_rtree := [1%Z];
     metadata :=
       [ ("created", "2024-05-01T12:00:00"); ("place_count", "1");
         ("poi_count", "1"); ("region", "Virginia");
         ("schema_version", "2") ] |}.

(** An airfield with a railway station: the pairs of two categories. *)
Definition airfield_station_tags : Tags :=
  {[ "aeroway" := "aerodrome"; "railway" := "station" ]}.

End Examples.

(** ** Python values: basic facts *)

Lemma truthy_Some (v : option string) :
  Py.truthy v = true ↔ ∃ c s, v = Some (String c s).
Proof.
  destruct v as [[|c s]|]; simpl; split; try done; try (by intros (?&?&?)).
  eauto.
Qed.

Lemma truthy_false (v : option string) :
  Py.truthy v = false ↔ v = None ∨ v = Some EmptyString.
Proof.
  destruct v as [[|c s]|]; simpl; split; try done; eauto; by intros [|].
Qed.

Lemma truthy_component (v : option string) :
  component v = if Py.truthy v then Some (Py.str v) else None.
Proof. by destruct v as [[|c s]|]. Qed.

Lemma In_truthy (v : option string) (l : list string) :
  EmptyString ∉ l → Py.In v l = true → Py.truthy v = true.
Proof.
  destruct v as [[|c s]|]; simpl; try done.
  intros Hl Hin. apply bool_decide_eq_true in Hin. done.
Qed.

Lemma PLACE_VALUES_nonempty : EmptyString ∉ PLACE_VALUES.
Proof. apply (bool_decide_unpack _). by vm_compute. Qed.

(** ** Classifier: empty values *)

Section Agreement.
Variables m1 m2 : Tags.
Hypothesis truthy_agree : ∀ k, Py.truthy (m1 !! k) = Py.truthy (m2 !! k).
Hypothesis value_agree : ∀ k, Py.truthy (m2 !! k) = true → m1 !! k = m2 !! k.

Lemma In_agree k l :
  EmptyString ∉ l → Py.In (m1 !! k) l = Py.In (m2 !! k) l.
Proof using truthy_agree value_agree.
  intros Hl. destruct (Py.truthy (m2 !! k)) eqn:E.
  - by rewrite value_agree.
  - pose proof (truthy_agree k) as E1. rewrite E in E1.
    destruct (Py.In (m1 !! k) l) eqn:I1; destruct (Py.In (m2 !! k) l) eqn:I2;
      try done.
    + apply In_truthy in I1; congruence.
    + apply In_truthy in I2; congruence.
Qed.

Ltac agree_on k :=
  rewrite (truthy_agree k);
  let E := fresh "E" in
  destruct (Py.truthy (m2 !! k)) eqn:E;
  [ try (rewrite (value_agree k E)) | ].

Lemma _get_place_type_agree : _get_place_type m1 = _get_place_type m2.
Proof using truthy_agree value_agree.
  unfold _get_place_type. cbv zeta.
  rewrite (In_agree "place" PLACE_VALUES PLACE_VALUES_nonempty).
  destruct (Py.In (m2 !! "place") PLACE_VALUES) eqn:Eplace.
  { apply value_agree. by apply (In_truthy _ _ PLACE_VALUES_nonempty). }
  agree_on "amenity"; [done|].
  agree_on "shop"; [done|].
  agree_on "tourism"; [done|].
  rewrite (truthy_agree "addr:street"), (truthy_agree "addr:housenumber").
  destruct (Py.truthy (m2 !! "addr:street") &&
            Py.truthy (m2 !! "addr:housenumber")).
  { agree_on "building"; done. }
  agree_on "leisure"; [done|].
  agree_on "office"; [done|].
  agree_on "aeroway"; [done|].
  agree_on "railway"; [done|].
  rewrite (truthy_agree "name").
  destruct (Py.truthy (m2 !! "name")); [|done].
  agree_on "landuse"; done.
Qed.

Lemma poi_category_loop_agree items :
  Forall (λ item : string * string * string, item.1.2 ≠ EmptyString) items →
  poi_category_loop items m1 = poi_category_loop items m2.
Proof using truthy_agree value_agree.
  induction 1 as [|[[k v] c] items Hv _ IH]; simpl in *; [done|].
  rewrite IH.
  assert (bool_decide (m1 !! k = Some v) = bool_decide (m2 !! k = Some v))
    as ->; [|done].
  apply bool_decide_ext. destruct v as [|a v]; [done|].
  pose proof (truthy_agree k) as Ht.
  split; intros Hk.
  - rewrite Hk in Ht. rewrite <- value_agree; by rewrite <- ?Ht.
  - rewrite value_agree; [done|]. by rewrite Hk.
Qed.

End Agreement.

Lemma POI_TAG_TO_CATEGORY_values_nonempty :
  Forall (λ item : string * string * string, item.1.2 ≠ EmptyString)
    POI_TAG_TO_CATEGORY.
Proof. apply (bool_decide_unpack _). by vm_compute. Qed.

(** C9: a tag present with the empty string as its value is classified
    like an absent tag: place-type resolution and POI-category resolution
    give the same result on [m] with [k] mapped to the empty string as on
    [m] with [k] removed. *)
Theorem empty_value_like_absent (m : Tags) (k : string) :
  _get_place_type (<[k := EmptyString]> m) = _get_place_type (delete k m)
  ∧ poi_category (<[k := EmptyString]> m) = poi_category (delete k m).
Proof.
  assert (∀ k', Py.truthy (<[k := EmptyString]> m !! k')
                = Py.truthy (delete k m !! k')) as Ht.
  { intros k'. destruct (decide (k = k')) as [->|Hne].
    - by rewrite lookup_insert_eq, lookup_delete_eq.
    - by rewrite lookup_insert_ne, lookup_delete_ne. }
  assert (∀ k', Py.truthy (delete k m !! k') = true →
                <[k := EmptyString]> m !! k' = delete k m !! k') as Hv.
  { intros k'. destruct (decide (k = k')) as [->|Hne].
    - by rewrite lookup_delete_eq.
    - by rewrite lookup_insert_ne, lookup_delete_ne. }
  split.
  - by apply _get_place_type_agree.
  - apply poi_category_loop_agree; auto using POI_TAG_TO_CATEGORY_values_nonempty.
Qed.

(** ** Classifier: rule 5 *)

(** C4, as stated, fails when an address tag is present with the empty
    string as its value: rules 1-4 do not match, both address keys are in
    the mapping, there is no [building] tag, and yet the place type is not
    [address]. *)
Lemma rule5_as_stated_fails :
  ¬ rule5_as_stated
      {[ "addr:street" := EmptyString; "addr:housenumber" := "10" ]}.
Proof.
  unfold rule5_as_stated. intros Hrule.
  specialize (Hrule eq_refl eq_refl eq_refl eq_refl
                (mk_is_Some _ EmptyString eq_refl)
                (mk_is_Some _ "10" eq_refl)).
  vm_compute in Hrule. discriminate Hrule.
Qed.

(** C4 (amended): when none of the rules 1-4 match (no enumerated [place]
    value, and [amenity], [shop] and [tourism] absent or empty) and both
    [addr:street] and [addr:housenumber] have a non-empty value, the place
    type is [building] for a [building] tag with the value [yes], the value
    prefixed with [building_] for any other non-empty value, and [address]
    when the [building] tag is absent or empty. *)
Theorem place_type_rule5 (tags : Tags) :
  Py.In (tags !! "place") PLACE_VALUES = false →
  Py.truthy (tags !! "amenity") = false →
  Py.truthy (tags !! "shop") = false →
  Py.truthy (tags !! "tourism") = false →
  Py.truthy (tags !! "addr:street") = true →
  Py.truthy (tags !! "addr:housenumber") = true →
  _get_place_type tags =
    match tags !! "building" with
    | Some (String c v) =>
        if bool_decide (String c v = "yes") then Some "building"
        else Some ("building_" +:+ String c v)
    | _ => Some "address"
    end.
Proof.
  intros Hplace Hamenity Hshop Htourism Hstreet Hnumber.
  unfold _get_place_type. cbv zeta.
  rewrite Hplace, Hamenity, Hshop, Htourism, Hstreet, Hnumber. simpl.
  destruct (tags !! "building") as [[|c v]|]; simpl; try done.
  destruct (decide (String c v = "yes")) as [->|Hne].
  - done.
  - rewrite bool_decide_eq_true_2 by congruence.
    by rewrite bool_decide_eq_false_2.
Qed.

Lemma place_type_rule5_witness :
  _get_place_type
    {[ "building" := "yes"; "addr:street" := "Main St";
       "addr:housenumber" := "10" ]} = Some "building"
  ∧ _get_place_type
      {[ "building" := "house"; "addr:street" := "Main St";
         "addr:housenumber" := "10" ]} = Some "building_house".
Proof.
  split.
  - etrans; [apply (place_type_rule5
                     {[ "building" := "yes"; "addr:street" := "Main St";
                        "addr:housenumber" := "10" ]}); reflexivity|].
    reflexivity.
  - etrans; [apply (place_type_rule5
                     {[ "building" := "house"; "addr:street" := "Main St";
                        "addr:housenumber" := "10" ]}); reflexivity|].
    reflexivity.
Defined.

(** ** Display-name composer *)

Lemma street_component_truthy (tags : Tags) (name : option string) :
  street_component tags name =
    if Py.truthy (tags !! "addr:street") then
      if Py.truthy (tags !! "addr:housenumber")
      then Some (Py.str (tags !! "addr:housenumber") +:+ " "
                 +:+ Py.str (tags !! "addr:street"))
      else if Py.truthy name then None
           else Some (Py.str (tags !! "addr:street"))
    else None.
Proof.
  unfold street_component.
  destruct (tags !! "addr:street") as [[|c s]|]; simpl; try done.
  by destruct (tags !! "addr:housenumber") as [[|c' s']|].
Qed.

Lemma append_component (parts : list string) (v : option string) :
  (if Py.truthy v then parts ++ [Py.str v] else parts)
  = parts ++ option_list (component v).
Proof.
  rewrite truthy_component. destruct (Py.truthy v); simpl; [done|].
  by rewrite app_nil_r.
Qed.

Lemma append_street (parts : list string) (tags : Tags)
    (name : option string) :
  (if Py.truthy (tags !! "addr:street") then
     if Py.truthy (tags !! "addr:housenumber")
     then parts ++ [Py.str (tags !! "addr:housenumber") +:+ " "
                    +:+ Py.str (tags !! "addr:street")]
     else if negb (Py.truthy name)
          then parts ++ [Py.str (tags !! "addr:street")]
          else parts
   else parts)
  = parts ++ option_list (street_component tags name).
Proof.
  rewrite street_component_truthy.
  destruct (Py.truthy (tags !! "addr:street")),
    (Py.truthy (tags !! "addr:housenumber")), (Py.truthy name); simpl;
    by rewrite ?app_nil_r.
Qed.

Lemma omap_id_cons {A} (o : option A) (l : list (option A)) :
  omap id (o :: l) = option_list o ++ omap id l.
Proof. by destruct o. Qed.

(** C1, as stated, fails for an entity with a name, a street and a house
    number: the code lists the "<housenumber> <street>" component after the
    name, the wording of the specification leaves it out. *)
Lemma display_name_as_stated_fails :
  let tags : Tags :=
    {[ "name" := "Joe's Cafe"; "addr:street" := "Main St";
       "addr:housenumber" := "10"; "addr:city" := "Springfield" ]} in
  _build_display_name "Virginia" tags (tags !! "name")
    = "Joe's Cafe, 10 Main St, Springfield"
  ∧ Py.join ", " (display_components_as_stated tags (tags !! "name"))
    = "Joe's Cafe, Springfield"
  ∧ _build_display_name "Virginia" tags (tags !! "name")
    ≠ Py.join ", " (display_components_as_stated tags (tags !! "name")).
Proof. by vm_compute. Qed.

(** C1 (amended): the display name is the comma-joined list of the
    non-empty components in the fixed order: the resolved name; then, for a
    non-empty street, "<housenumber> <street>" when there is a non-empty
    house number (whether or not a name is present) and otherwise the bare
    street only if the name is absent or empty; then city; then state; then
    country; then postcode. When no component is listed the result is the
    handler's region label. *)
Theorem display_name_components (region_name : string) (tags : Tags)
    (name : option string) :
  _build_display_name region_name tags name =
    match display_components tags name with
    | [] => region_name
    | parts => Py.join ", " parts
    end.
Proof.
  unfold _build_display_name, display_components. cbv zeta.
  rewrite !append_component, append_street.
  rewrite !omap_id_cons. simpl omap. rewrite app_nil_r.
  rewrite <- !app_assoc. simpl app.
  by destruct (option_list (component name) ++ _).
Qed.

(** ** Stripping *)

Lemma chars_rev_app (s1 s2 : string) :
  list_ascii_of_string (String.rev_app s1 s2)
  = reverse (list_ascii_of_string s1) ++ list_ascii_of_string s2.
Proof.
  revert s2. induction s1 as [|c s1 IH]; intros s2; simpl; [done|].
  rewrite IH, reverse_cons. simpl. by rewrite <- app_assoc.
Qed.

Lemma chars_rev (s : string) :
  list_ascii_of_string (String.rev s) = reverse (list_ascii_of_string s).
Proof. unfold String.rev. rewrite chars_rev_app. simpl. by rewrite app_nil_r. Qed.

Lemma chars_app (s1 s2 : string) :
  list_ascii_of_string (s1 +:+ s2)
  = list_ascii_of_string s1 ++ list_ascii_of_string s2.
Proof. induction s1 as [|c s1 IH]; simpl; [done|]. by rewrite <- IH. Qed.

Lemma has_nonspace_rev (s : string) :
  has_nonspace s → has_nonspace (String.rev s).
Proof.
  intros (c & Hc & Hsp). exists c. split; [|done].
  rewrite chars_rev. by apply elem_of_reverse.
Qed.

Lemma has_nonspace_lstrip (s : string) :
  has_nonspace s → has_nonspace (Py.lstrip s).
Proof.
  induction s as [|a s IH]; [done|]. intros (c & Hc & Hsp). simpl.
  destruct (Py.isspace a) eqn:Ha.
  - apply IH. exists c. split; [|done].
    simpl in Hc. apply elem_of_cons in Hc as [->|Hc]; [congruence|done].
  - by exists c.
Qed.

Lemma has_nonspace_ne (s : string) : has_nonspace s → s ≠ EmptyString.
Proof. intros (c & Hc & _) ->. simpl in Hc. by apply elem_of_nil in Hc. Qed.

Lemma strip_nonempty (s : string) :
  has_nonspace s → Py.strip s ≠ EmptyString.
Proof.
  intros Hs. apply has_nonspace_ne. unfold Py.strip, Py.rstrip.
  by apply has_nonspace_rev, has_nonspace_lstrip, has_nonspace_rev,
    has_nonspace_lstrip.
Qed.

Lemma has_nonspace_app_r (s1 s2 : string) :
  has_nonspace s2 → has_nonspace (s1 +:+ s2).
Proof.
  intros (c & Hc & Hsp). exists c. split; [|done].
  rewrite chars_app. apply elem_of_app. by right.
Qed.

(** ** Record extractor: outcomes of the methods *)

Section Properties.
Context `{PyFloat}.

Lemma addr_part_Ok (tags : Tags) (k : string) (parts : list string) :
  (if Py.truthy (tags !! k)
   then v ← tags_index tags k; mret (parts ++ [v])
   else mret parts)
  = Ok (if Py.truthy (tags !! k) then parts ++ [Py.str (tags !! k)]
        else parts).
Proof.
  unfold tags_index. by destruct (tags !! k) as [[|c s]|].
Qed.

(** With readable tags, [_extract_poi] returns: the indexing [tags[k]] is
    guarded by the truth value of [tags.get(k)]. The record, if any, has
    the coordinates it was given and the category of the loop. *)
Lemma _extract_poi_Ok (obj : OSMObject) (tags : Tags) (lat lon : float) :
  obj_tags obj = Ok tags →
  ∃ r, _extract_poi obj lat lon = Ok r
    ∧ (Py.truthy (poi_category tags) = false → r = None)
    ∧ (Py.truthy (poi_category tags) = true →
       ∃ poi, r = Some poi ∧ poi_lat poi = lat ∧ poi_lon poi = lon
         ∧ Some (poi_category_ poi) = poi_category tags).
Proof.
  intros Htags. unfold _extract_poi. rewrite Htags.
  change (Ok tags ≫= ?k) with (k tags). cbv beta.
  destruct (Py.truthy (poi_category tags)) eqn:Hcat; simpl negb; cbv iota.
  - repeat (rewrite addr_part_Ok; change (Ok ?x ≫= ?k) with (k x); cbv beta).
    eexists. split; [reflexivity|]. split; [done|]. intros _.
    eexists. split; [reflexivity|]. simpl. repeat split.
    apply truthy_Some in Hcat as (c & s & ->). done.
  - eexists. split; [reflexivity|]. split; [done|]. done.
Qed.

Lemma _extract_poi_Raise (obj : OSMObject) (e : Exception) (lat lon : float) :
  obj_tags obj = Raise e → _extract_poi obj lat lon = Raise e.
Proof. intros Htags. unfold _extract_poi. by rewrite Htags. Qed.

Lemma _extract_place_Raise (self : PlaceHandler) (obj : OSMObject)
    (e : Exception) (lat lon : float) :
  obj_tags obj = Raise e → _extract_place self obj lat lon = Raise e.
Proof. intros Htags. unfold _extract_place. by rewrite Htags. Qed.

(** With readable tags, [_extract_place] returns, and the record, if any,
    has the coordinates it was given. *)
Lemma _extract_place_Ok (self : PlaceHandler) (obj : OSMObject) (tags : Tags)
    (lat lon : float) :
  obj_tags obj = Ok tags →
  ∃ r, _extract_place self obj lat lon = Ok r
    ∧ ∀ p, r = Some p → place_lat p = lat ∧ place_lon p = lon.
Proof.
  intros Htags. unfold _extract_place. rewrite Htags. simpl.
  destruct (negb (Py.truthy (tags !! "name"))
            && negb (Py.truthy (tags !! "addr:street"))); simpl.
  { eexists. split; [reflexivity|]. done. }
  destruct (negb (Py.truthy (_get_place_type tags))); simpl.
  { eexists. split; [reflexivity|]. done. }
  eexists. split; [reflexivity|]. by intros p [= <-].
Qed.

Lemma record_place_run (place : Place) (self : PlaceHandler) :
  ∃ self', record_place place self = (Ok tt, self')
    ∧ places self' = places self ++ [place]
    ∧ pois self' = pois self
    ∧ region_name self' = region_name self.
Proof.
  unfold record_place, mbind, M_bind, modify, get_self, print, mret, M_ret.
  simpl.
  destruct (_ =? _)%Z; simpl; eexists; (split; [reflexivity|done]).
Qed.

Lemma record_poi_run (poi : POI) (self : PlaceHandler) :
  ∃ self', record_poi poi self = (Ok tt, self')
    ∧ places self' = places self
    ∧ pois self' = pois self ++ [poi]
    ∧ region_name self' = region_name self.
Proof.
  unfold record_poi, mbind, M_bind, modify. simpl.
  eexists; (split; [reflexivity|done]).
Qed.


Lemma record_place_fst (place : Place) (self : PlaceHandler) :
  record_place place self = (Ok tt, (record_place place self).2).
Proof. by destruct (record_place_run place self) as (self' & -> & _). Qed.

Lemma record_poi_fst (poi : POI) (self : PlaceHandler) :
  record_poi poi self = (Ok tt, (record_poi poi self).2).
Proof. by destruct (record_poi_run poi self) as (self' & -> & _). Qed.

Lemma node_run (n : Node) (self : PlaceHandler) :
  node n self =
    if loc_valid (n_location n)
    then extraction_steps (NodeObj n) (loc_lat (n_location n))
           (loc_lon (n_location n)) id id self
    else (Ok tt, self).
Proof.
  unfold node, extraction_steps, Location_lat, Location_lon.
  destruct (loc_valid (n_location n)); [|done]. simpl.
  unfold mbind, M_bind, lift, get_self. simpl.
  destruct (_extract_place _ _ _ _) as [[place|]|e]; simpl; [| |done].
  - rewrite record_place_fst.
    destruct (_extract_poi _ _ _) as [[poi|]|e]; simpl; [|done..].
    by rewrite record_poi_fst.
  - destruct (_extract_poi _ _ _) as [[poi|]|e]; simpl; [|done..].
    by rewrite record_poi_fst.
Qed.

Lemma way_vertices_Ok (nodes : list NodeRef) (lats lons : list float) :
  way_vertices nodes lats lons =
    Ok (lats ++ (loc_lat <$> List.filter loc_valid (nr_location <$> nodes)),
        lons ++ (loc_lon <$> List.filter loc_valid (nr_location <$> nodes))).
Proof.
  revert lats lons. induction nodes as [|node nodes IH]; intros lats lons.
  - simpl. by rewrite !app_nil_r.
  - simpl. unfold Location_lat, Location_lon.
    destruct (loc_valid (nr_location node)); simpl.
    + rewrite IH. by rewrite <- !app_assoc.
    + apply IH.
Qed.

Lemma way_body_run (w : Way) (self : PlaceHandler) :
  way_body w self =
    match valid_vertices w with
    | [] => (Ok tt, self)
    | vs =>
        extraction_steps (WayObj w) (mean (loc_lat <$> vs))
          (mean (loc_lon <$> vs)) (place_set_osm_type "way")
          (poi_set_osm_type "way") self
    end.
Proof.
  unfold way_body, valid_vertices. rewrite way_vertices_Ok. simpl.
  unfold mbind at 1, M_bind at 1, lift at 1.
  destruct (List.filter loc_valid (nr_location <$> w_nodes w)) as [|v vs];
    [done|].
  unfold extraction_steps. simpl.
  unfold mbind, M_bind, lift, get_self. simpl.
  destruct (_extract_place _ _ _ _) as [[place|]|e]; simpl; [| |done].
  - rewrite record_place_fst.
    destruct (_extract_poi _ _ _) as [[poi|]|e]; simpl; [|done..].
    by rewrite record_poi_fst.
  - destruct (_extract_poi _ _ _) as [[poi|]|e]; simpl; [|done..].
    by rewrite record_poi_fst.
Qed.

Lemma way_run (w : Way) (self : PlaceHandler) :
  way w self = (Ok tt, (way_body w self).2).
Proof.
  unfold way, try_except. by destruct (way_body w self) as [[[]|e] self'].
Qed.

Lemma after_place_spec (place : option Place) (self : PlaceHandler) :
  places (after_place place self) = places self ++ option_list place
  ∧ pois (after_place place self) = pois self
  ∧ region_name (after_place place self) = region_name self.
Proof.
  destruct place as [p|]; unfold after_place; [|by rewrite app_nil_r].
  by destruct (record_place_run p self) as (s1 & -> & ? & ? & ?).
Qed.

Lemma after_poi_spec (poi : option POI) (self : PlaceHandler) :
  places (after_poi poi self) = places self
  ∧ pois (after_poi poi self) = pois self ++ option_list poi
  ∧ region_name (after_poi poi self) = region_name self.
Proof.
  destruct poi as [q|]; unfold after_poi; [|by rewrite app_nil_r].
  by destruct (record_poi_run q self) as (s1 & -> & ? & ? & ?).
Qed.

Lemma extraction_steps_spec (obj : OSMObject) (lat lon : float)
    (fp : Place → Place) (fq : POI → POI) (self : PlaceHandler) :
  ∃ self',
    extraction_steps obj lat lon fp fq self
      = (match obj_tags obj with Ok _ => Ok tt | Raise e => Raise e end, self')
    ∧ places self' = places self
        ++ match _extract_place self obj lat lon with
           | Ok (Some p) => [fp p]
           | _ => []
           end
    ∧ pois self' = pois self
        ++ match _extract_poi obj lat lon with
           | Ok (Some q) => [fq q]
           | _ => []
           end
    ∧ region_name self' = region_name self
    ∧ (∀ e, obj_tags obj = Raise e → self' = self).
Proof.
  unfold extraction_steps. destruct (obj_tags obj) as [tags|e] eqn:Htags.
  - destruct (_extract_place_Ok self obj tags lat lon Htags) as (rp & -> & _).
    destruct (_extract_poi_Ok obj tags lat lon Htags) as (rq & -> & _).
    eexists. split; [reflexivity|].
    destruct (after_poi_spec (fq <$> rq) (after_place (fp <$> rp) self))
      as (-> & -> & ->).
    destruct (after_place_spec (fp <$> rp) self) as (-> & -> & ->).
    by destruct rp, rq.
  - rewrite (_extract_place_Raise self obj e lat lon Htags).
    rewrite (_extract_poi_Raise obj e lat lon Htags).
    eexists. split; [reflexivity|]. rewrite !app_nil_r. done.
Qed.

(** What a call of the driver does to the handler: it returns unless the
    entity is a node whose tags cannot be read, it only appends records,
    and it keeps the region label. *)
Lemma handle_run (obj : OSMObject) (self : PlaceHandler) :
  ∃ r self' new_places new_pois,
    handle obj self = (r, self')
    ∧ places self' = places self ++ new_places
    ∧ pois self' = pois self ++ new_pois
    ∧ region_name self' = region_name self
    ∧ (entity_readable obj = true → r = Ok tt).
Proof.
  destruct obj as [n|w]; simpl.
  - rewrite node_run. destruct (loc_valid (n_location n)) eqn:Hvalid.
    + destruct (extraction_steps_spec (NodeObj n) (loc_lat (n_location n))
                  (loc_lon (n_location n)) id id self)
        as (self' & -> & Hp & Hq & Hr & _).
      do 4 eexists. split; [reflexivity|]. repeat split; [done..|].
      simpl. by destruct (n_tags n).
    + exists (Ok tt), self, [], []. by rewrite !app_nil_r.
  - rewrite way_run, way_body_run.
    destruct (valid_vertices w) as [|v vs]; cbv beta iota zeta.
    + exists (Ok tt), self, [], []. by rewrite !app_nil_r.
    + destruct (extraction_steps_spec (WayObj w)
                  (mean (loc_lat <$> v :: vs)) (mean (loc_lon <$> v :: vs))
                  (place_set_osm_type "way") (poi_set_osm_type "way") self)
        as (self' & -> & Hp & Hq & Hr & _).
      simpl. by do 4 eexists.
Qed.

Lemma apply_file_cons (obj : OSMObject) (rest : list OSMObject)
    (self : PlaceHandler) :
  apply_file (obj :: rest) self =
    match handle obj self with
    | (Ok _, self') => apply_file rest self'
    | (Raise e, self') => (Raise e, self')
    end.
Proof. done. Qed.

Lemma apply_file_region_name (entities : list OSMObject)
    (self : PlaceHandler) :
  region_name (apply_file entities self).2 = region_name self.
Proof.
  revert self. induction entities as [|obj rest IH]; intros self; [done|].
  rewrite apply_file_cons.
  destruct (handle_run obj self) as (r & self' & ? & ? & -> & _ & _ & Hr & _).
  destruct r as [[]|e]; simpl; [|done]. by rewrite IH.
Qed.

(** C3 (amended): a way never raises: whatever fault occurs while it is
    processed is caught, a way whose tags cannot be read leaves the handler
    as it was, and the run goes on. A node with an invalid location is
    skipped by the guard, and a node with readable tags is processed
    without a fault; a stream whose nodes are all of these two kinds is
    processed to its end, whatever its ways are. *)
Theorem entity_faults (entities : list OSMObject) (w : Way) (n : Node)
    (self : PlaceHandler) :
  (∃ self', way w self = (Ok tt, self')
     ∧ (∀ e, w_tags w = Raise e → self' = self))
  ∧ (loc_valid (n_location n) = false → node n self = (Ok tt, self))
  ∧ (is_Ok (n_tags n) = true → ∃ self', node n self = (Ok tt, self'))
  ∧ (forallb entity_readable entities = true →
     ∃ self', apply_file entities self = (Ok tt, self')).
Proof.
  split; [|split; [|split]].
  - rewrite way_run, way_body_run. eexists. split; [reflexivity|].
    intros e He.
    destruct (valid_vertices w) as [|v vs]; cbv beta iota zeta; [done|].
    destruct (extraction_steps_spec (WayObj w)
                (mean (loc_lat <$> v :: vs)) (mean (loc_lon <$> v :: vs))
                (place_set_osm_type "way") (poi_set_osm_type "way") self)
      as (self' & -> & _ & _ & _ & Hsame).
    simpl. by apply (Hsame e).
  - intros Hvalid. by rewrite node_run, Hvalid.
  - intros Hok.
    destruct (handle_run (NodeObj n) self)
      as (r & self' & ? & ? & Hrun & _ & _ & _ & Hr).
    simpl in Hrun, Hr. rewrite Hok, orb_true_r in Hr.
    rewrite Hrun, Hr by done. by eexists.
  - clear w n. revert self.
    induction entities as [|obj rest IH]; intros self Hall.
    + by eexists.
    + simpl in Hall. apply andb_true_iff in Hall as [Hobj Hrest].
      rewrite apply_file_cons.
      destruct (handle_run obj self)
        as (r & self' & ? & ? & -> & _ & _ & _ & Hr).
      rewrite Hr by done. by apply IH.
Qed.

(** C5: an entity whose tags have neither [name] nor [addr:street] yields
    no Place, whatever its other tags and its coordinate: [_extract_place]
    returns [None] and the handler method adds nothing to [places]. *)
Theorem no_place_without_name_and_street (self : PlaceHandler)
    (obj : OSMObject) (tags : Tags) (lat lon : float) :
  obj_tags obj = Ok tags →
  tags !! "name" = None →
  tags !! "addr:street" = None →
  _extract_place self obj lat lon = Ok None
  ∧ places (handle obj self).2 = places self.
Proof.
  intros Htags Hname Hstreet.
  assert (∀ lat lon, _extract_place self obj lat lon = Ok None) as Hnone.
  { intros lat' lon'. unfold _extract_place.
    by rewrite Htags; simpl; rewrite Hname, Hstreet. }
  split; [done|].
  destruct obj as [n|w]; simpl.
  - rewrite node_run. destruct (loc_valid (n_location n)); [|done].
    destruct (extraction_steps_spec (NodeObj n) (loc_lat (n_location n))
                (loc_lon (n_location n)) id id self)
      as (self' & -> & Hp & _).
    simpl. by rewrite Hp, Hnone, app_nil_r.
  - rewrite way_run, way_body_run.
    destruct (valid_vertices w) as [|v vs]; cbv beta iota zeta; [done|].
    destruct (extraction_steps_spec (WayObj w)
                (mean (loc_lat <$> v :: vs)) (mean (loc_lon <$> v :: vs))
                (place_set_osm_type "way") (poi_set_osm_type "way") self)
      as (self' & -> & Hp & _).
    simpl. by rewrite Hp, Hnone, app_nil_r.
Qed.

(** ** POI category *)

Lemma POI_TAG_TO_CATEGORY_eq :
  POI_TAG_TO_CATEGORY = (λ item, (item.2, item.1)) <$> POI_CATEGORIES.
Proof. by vm_compute. Qed.

Lemma poi_category_loop_None (items : list (string * string * string))
    (tags : Tags) :
  (∀ k v c, (k, v, c) ∈ items → tags !! k ≠ Some v) →
  poi_category_loop items tags = None.
Proof.
  induction items as [|[[k v] c] items IH]; intros Hno; simpl; [done|].
  rewrite bool_decide_eq_false_2 by (eapply Hno; left).
  apply IH. intros k' v' c' Hin. eapply Hno. by right.
Qed.

(** C6: the POI category depends on the tags alone: an entity with
    [amenity=pharmacy] gets the category [PHARMACY] whatever its other tags
    (and its identifier, kind and coordinate) are, and an entity whose tags
    match no pair of the category table yields no POI. *)
Theorem poi_category_of_tags (self : PlaceHandler) (obj : OSMObject)
    (tags : Tags) (lat lon : float) :
  obj_tags obj = Ok tags →
  (tags !! "amenity" = Some "pharmacy" →
     poi_category tags = Some "PHARMACY"
     ∧ ∃ poi, _extract_poi obj lat lon = Ok (Some poi)
         ∧ poi_category_ poi = "PHARMACY")
  ∧ ((∀ c k v, (c, (k, v)) ∈ POI_CATEGORIES → tags !! k ≠ Some v) →
     poi_category tags = None
     ∧ _extract_poi obj lat lon = Ok None
     ∧ pois (handle obj self).2 = pois self).
Proof.
  intros Htags. split.
  - intros Hamenity.
    assert (poi_category tags = Some "PHARMACY") as Hcat.
    { unfold poi_category. rewrite POI_TAG_TO_CATEGORY_eq. simpl.
      by rewrite Hamenity. }
    split; [done|].
    destruct (_extract_poi_Ok obj tags lat lon Htags) as (r & -> & _ & Hsome).
    rewrite Hcat in Hsome. destruct (Hsome eq_refl) as (poi & -> & _ & _ & Hc).
    exists poi. split; [done|]. by injection Hc.
  - intros Hno.
    assert (poi_category tags = None) as Hcat.
    { apply poi_category_loop_None. intros k v c.
      rewrite POI_TAG_TO_CATEGORY_eq. intros Hin.
      apply list_elem_of_fmap in Hin as ([c' [k' v']] & [= -> -> ->] & Hin).
      by eapply Hno. }
    assert (∀ lat lon, _extract_poi obj lat lon = Ok None) as Hnone.
    { intros lat' lon'.
      destruct (_extract_poi_Ok obj tags lat' lon' Htags) as (r & -> & Hr & _).
      rewrite Hcat in Hr. by rewrite Hr. }
    split; [done|]. split; [done|].
    destruct obj as [n|w]; simpl.
    + rewrite node_run. destruct (loc_valid (n_location n)); [|done].
      destruct (extraction_steps_spec (NodeObj n) (loc_lat (n_location n))
                  (loc_lon (n_location n)) id id self)
        as (self' & -> & _ & Hq & _).
      simpl. by rewrite Hq, Hnone, app_nil_r.
    + rewrite way_run, way_body_run.
      destruct (valid_vertices w) as [|v vs]; cbv beta iota zeta; [done|].
      destruct (extraction_steps_spec (WayObj w)
                  (mean (loc_lat <$> v :: vs)) (mean (loc_lon <$> v :: vs))
                  (place_set_osm_type "way") (poi_set_osm_type "way") self)
        as (self' & -> & _ & Hq & _).
      simpl. by rewrite Hq, Hnone, app_nil_r.
Qed.

(** ** Fields of a Place *)

(** C10: in every Place that is emitted the state field is the region
    label the handler was constructed with when the tag [addr:state] is
    absent, and the value of that tag, as it is (the empty string
    included), when it is present; storing the record for a way leaves the
    field as it is. *)
Theorem place_state_field (region : string) (entities : list OSMObject)
    (obj : OSMObject) (tags : Tags) (lat lon : float) (p : Place) :
  let self := (apply_file entities (PlaceHandler_init region)).2 in
  obj_tags obj = Ok tags →
  _extract_place self obj lat lon = Ok (Some p) →
  place_state p = match tags !! "addr:state" with
                  | Some v => v
                  | None => region
                  end
  ∧ place_state (place_set_osm_type "way" p) = place_state p.
Proof.
  intros self Htags. unfold _extract_place. rewrite Htags.
  change (Ok tags ≫= ?k) with (k tags). cbv beta zeta.
  destruct (negb _ && negb _); [done|].
  destruct (negb _); [done|].
  intros [= <-]. simpl. split; [|done].
  unfold Py.get, self. rewrite apply_file_region_name. simpl.
  by destruct (tags !! "addr:state").
Qed.

(** C2 (amended): in every Place that is emitted, the name field is the
    value of the tag [name] when that value is non-empty, and is then
    non-empty; otherwise [addr:street] has a non-empty value and, when
    [addr:housenumber] is present, the name field is the house number, a
    space and the street, stripped of surrounding whitespace, which is
    non-empty as soon as the street has a character that is no
    whitespace. *)
Theorem place_name_field (self : PlaceHandler) (obj : OSMObject)
    (tags : Tags) (lat lon : float) (p : Place) :
  obj_tags obj = Ok tags →
  _extract_place self obj lat lon = Ok (Some p) →
  (∀ c s, tags !! "name" = Some (String c s) →
     place_name p = String c s ∧ place_name p ≠ EmptyString)
  ∧ (Py.truthy (tags !! "name") = false →
     ∃ street,
       tags !! "addr:street" = Some street ∧ street ≠ EmptyString
       ∧ ∀ number, tags !! "addr:housenumber" = Some number →
           place_name p = Py.strip (number +:+ " " +:+ street)
           ∧ (has_nonspace street → place_name p ≠ EmptyString)).
Proof.
  intros Htags. unfold _extract_place. rewrite Htags.
  change (Ok tags ≫= ?k) with (k tags). cbv beta zeta.
  destruct (Py.truthy (tags !! "name")) eqn:Hname; simpl negb; simpl andb.
  - destruct (negb _); [done|]. intros [= <-]. simpl. split; [|done].
    intros c s Hcs. unfold Py.or. rewrite Hname, Hcs. by simpl.
  - destruct (Py.truthy (tags !! "addr:street")) eqn:Hstreet; simpl negb;
      cbv iota; [|done].
    destruct (negb _); [done|]. intros [= <-]. simpl. split.
    { intros c s Hcs. rewrite Hcs in Hname. done. }
    intros _. apply truthy_Some in Hstreet as (c & street & Hstreet).
    exists (String c street). split; [done|]. split; [done|].
    intros number Hnumber. unfold Py.or. rewrite Hname, Hnumber, Hstreet.
    simpl Py.str. split; [done|].
    intros Hns. apply strip_nonempty. by do 2 apply has_nonspace_app_r.
Qed.

(** ** Metadata of the store *)

Lemma metadata_insert_fresh (md : list (string * string))
    (key value : string) :
  key ∉ md.*1 → metadata_insert md key value = Ok (md ++ [(key, value)]).
Proof. intros Hfresh. unfold metadata_insert. by rewrite bool_decide_eq_false_2. Qed.

(** C8: for every batch, the empty one included, the store is built and
    its metadata relation holds the number of Places under [place_count],
    the number of POIs under [poi_count], both in decimal, and [2] under
    [schema_version]; for the empty batch the two counts are [0]. *)
Theorem create_database_metadata (places : list Place) (pois : list POI)
    (region now : string) :
  (∃ store,
     create_database places pois region now = Ok store
     ∧ metadata_get (metadata store) "place_count"
       = Some (pretty (length places))
     ∧ metadata_get (metadata store) "poi_count"
       = Some (pretty (length pois))
     ∧ metadata_get (metadata store) "schema_version" = Some "2")
  ∧ (∃ store,
       create_database [] [] region now = Ok store
       ∧ metadata_get (metadata store) "place_count" = Some "0"
       ∧ metadata_get (metadata store) "poi_count" = Some "0"
       ∧ metadata_get (metadata store) "schema_version" = Some "2").
Proof.
  assert (∀ places pois, ∃ store,
            create_database places pois region now = Ok store
            ∧ metadata store =
                [ ("created", now);
                  ("place_count", pretty (length places));
                  ("poi_count", pretty (length pois));
                  ("region", region); ("schema_version", "2") ]) as Hbuild.
  { intros ps qs. unfold create_database. cbv zeta.
    repeat (rewrite metadata_insert_fresh
              by (apply (bool_decide_unpack _); by vm_compute);
            change (Ok ?x ≫= ?k) with (k x); cbv beta).
    eexists. split; [reflexivity|done]. }
  split.
  - destruct (Hbuild places pois) as (store & -> & Hmd).
    exists store. rewrite Hmd. done.
  - destruct (Hbuild [] []) as (store & -> & Hmd).
    exists store. rewrite Hmd. done.
Qed.

End Properties.

(** ** The properties on concrete entities *)

Section Witnesses.
Local Existing Instance Q_float.

Lemma place_name_field_witness :
  place_name cafe_place = Py.strip ("10" +:+ " " +:+ "Main St").
Proof.
  destruct (place_name_field (PlaceHandler_init "Virginia")
              (NodeObj (node_with (Ok cafe_tags))) cafe_tags
              (1 # 2)%Q (3 # 4)%Q cafe_place eq_refl eq_refl)
    as [_ Hstreet].
  destruct (Hstreet eq_refl) as (street & Hs & _ & Hname).
  assert (street = "Main St") as -> by (vm_compute in Hs; congruence).
  exact (proj1 (Hname "10" eq_refl)).
Defined.

(** C2, as stated, fails on two entities. Without [name] and
    [addr:housenumber] the name field is not the street alone: the absent
    house number is formatted as the word [None]. With a [name] tag that is
    present with the empty string as its value, the name field is not the
    value of that tag. *)
Lemma place_name_as_stated_fails :
  (∃ p,
     _extract_place (PlaceHandler_init "Virginia")
       (NodeObj (node_with (Ok street_only_tags))) (1 # 2)%Q (3 # 4)%Q
       = Ok (Some p)
     ∧ street_only_tags !! "name" = None
     ∧ street_only_tags !! "addr:housenumber" = None
     ∧ street_only_tags !! "addr:street" = Some "Main St"
     ∧ place_name p = "None Main St"
     ∧ place_name p ≠ "Main St")
  ∧ (∃ p,
       _extract_place (PlaceHandler_init "Virginia")
         (NodeObj (node_with (Ok empty_name_tags))) (1 # 2)%Q (3 # 4)%Q
         = Ok (Some p)
       ∧ empty_name_tags !! "name" = Some EmptyString
       ∧ place_name p = "10 Main St"
       ∧ Some (place_name p) ≠ empty_name_tags !! "name").
Proof.
  split; eexists; (split; [reflexivity|]); by vm_compute.
Qed.

(** C3, as stated, fails for nodes: [node] has no handler, so a fault
    while a node is processed leaves the method and ends the run; the node
    after it is not processed. *)
Lemma node_fault_propagates :
  node (node_with unreadable) (PlaceHandler_init "Virginia")
    = (Raise (RuntimeError "tags cannot be read"),
       PlaceHandler_init "Virginia")
  ∧ apply_file
      [NodeObj (node_with unreadable); NodeObj (node_with (Ok cafe_tags))]
      (PlaceHandler_init "Virginia")
    = (Raise (RuntimeError "tags cannot be read"),
       PlaceHandler_init "Virginia").
Proof. by vm_compute. Qed.

Lemma entity_faults_witness :
  way (way_with [point 1 3] unreadable) (PlaceHandler_init "Virginia")
    = (Ok tt, PlaceHandler_init "Virginia")
  ∧ node {| n_id := 8; n_location := missing_point; n_tags := unreadable |}
      (PlaceHandler_init "Virginia")
    = (Ok tt, PlaceHandler_init "Virginia")
  ∧ (∃ self', node (node_with (Ok cafe_tags)) (PlaceHandler_init "Virginia")
              = (Ok tt, self'))
  ∧ (∃ self',
       apply_file
         [ WayObj (way_with [point 1 3] unreadable);
           NodeObj (node_with (Ok cafe_tags)) ]
         (PlaceHandler_init "Virginia")
       = (Ok tt, self')).
Proof.
  split; [|split; [|split]].
  - destruct (entity_faults [] (way_with [point 1 3] unreadable)
                (node_with unreadable) (PlaceHandler_init "Virginia"))
      as ((self' & Hrun & Hsame) & _).
    rewrite (Hsame _ eq_refl) in Hrun. exact Hrun.
  - destruct (entity_faults []  (way_with [] unreadable)
                {| n_id := 8; n_location := missing_point;
                   n_tags := unreadable |}
                (PlaceHandler_init "Virginia"))
      as (_ & Hguard & _).
    exact (Hguard eq_refl).
  - destruct (entity_faults [] (way_with [] unreadable)
                (node_with (Ok cafe_tags)) (PlaceHandler_init "Virginia"))
      as (_ & _ & Hnode & _).
    exact (Hnode eq_refl).
  - destruct (entity_faults
                [ WayObj (way_with [point 1 3] unreadable);
                  NodeObj (node_with (Ok cafe_tags)) ]
                (way_with [] unreadable) (node_with unreadable)
                (PlaceHandler_init "Virginia"))
      as (_ & _ & _ & Hstream).
    exact (Hstream eq_refl).
Defined.

Lemma no_place_without_name_and_street_witness :
  _extract_place (PlaceHandler_init "Virginia")
    (NodeObj (node_with (Ok bench_tags))) (1 # 2)%Q (3 # 4)%Q = Ok None
  ∧ places (handle (NodeObj (node_with (Ok bench_tags)))
              (PlaceHandler_init "Virginia")).2
    = places (PlaceHandler_init "Virginia").
Proof.
  apply (no_place_without_name_and_street (PlaceHandler_init "Virginia")
           (NodeObj (node_with (Ok bench_tags))) bench_tags);
    reflexivity.
Defined.

Lemma poi_category_of_tags_witness :
  poi_category pharmacy_tags = Some "PHARMACY"
  ∧ _extract_poi (NodeObj (node_with (Ok bench_tags))) (1 # 2)%Q (3 # 4)%Q
    = Ok None.
Proof.
  split.
  - destruct (poi_category_of_tags (PlaceHandler_init "Virginia")
                (NodeObj (node_with (Ok pharmacy_tags))) pharmacy_tags
                (1 # 2)%Q (3 # 4)%Q eq_refl) as [Hpharmacy _].
    exact (proj1 (Hpharmacy eq_refl)).
  - destruct (poi_category_of_tags (PlaceHandler_init "Virginia")
                (NodeObj (node_with (Ok bench_tags))) bench_tags
                (1 # 2)%Q (3 # 4)%Q eq_refl) as [_ Hnone].
    apply Hnone. intros c k v Hin.
    assert (Forall (λ item : string * (string * string),
                      bench_tags !! item.2.1 ≠ Some item.2.2)
              POI_CATEGORIES) as Hall
      by (apply (bool_decide_unpack _); vm_compute; exact I).
    rewrite Forall_forall in Hall. exact (Hall _ Hin).
Defined.

(** A way with the valid vertices (1, 3) and (2, 5) and one vertex
    without a location: its Place and its POI are at (3/2, 4). *)
Example way_mean_of_valid_vertices :
  let self :=
    (way (way_with [point 1 3; missing_point; point 2 5] (Ok cafe_tags))
       (PlaceHandler_init "Virginia")).2 in
  (λ p, (place_osm_type p, Qred (place_lat p), Qred (place_lon p)))
    <$> places self = [("way", (3 # 2)%Q, 4%Q)]
  ∧ (λ q, (poi_category_ q, Qred (poi_lat q), Qred (poi_lon q)))
    <$> pois self = [("CAFE", (3 # 2)%Q, 4%Q)].
Proof. by vm_compute. Qed.

Lemma place_state_field_witness :
  place_state cafe_place = "Virginia".
Proof.
  exact (proj1 (place_state_field "Virginia" []
                  (NodeObj (node_with (Ok cafe_tags))) cafe_tags
                  (1 # 2)%Q (3 # 4)%Q cafe_place eq_refl eq_refl)).
Defined.

(** The examples of the specification. *)
Example display_name_examples :
  _build_display_name "Virginia"
    {[ "name" := "Joe's Cafe"; "addr:city" := "Springfield" ]}
    (Some "Joe's Cafe") = "Joe's Cafe, Springfield"
  ∧ _build_display_name "Virginia"
      {[ "addr:street" := "Main St"; "addr:housenumber" := "10";
         "addr:city" := "Springfield" ]} None = "10 Main St, Springfield"
  ∧ _build_display_name "Virginia" ∅ None = "Virginia".
Proof. by vm_compute. Qed.

End Witnesses.

(** ** Classifier: further properties *)

Lemma _get_place_type_truthy (tags : Tags) :
  _get_place_type tags = None ∨ Py.truthy (_get_place_type tags) = true.
Proof.
  unfold _get_place_type. cbv zeta.
  destruct (Py.In (tags !! "place") PLACE_VALUES) eqn:Eplace.
  { right. by apply (In_truthy _ _ PLACE_VALUES_nonempty). }
  repeat match goal with
         | |- context [if Py.truthy ?v then _ else _] =>
             let E := fresh "E" in destruct (Py.truthy v) eqn:E
         | |- context [if ?b && ?b' then _ else _] => destruct (b && b')
         | |- context [if bool_decide ?P then _ else _] =>
             destruct (bool_decide P)
         end;
    try (by left); right; try done;
    match goal with
    | E : Py.truthy ?v = true |- _ =>
        apply truthy_Some in E as (c & s & ->); reflexivity
    end.
Qed.

(** X1: the place type is never the empty string. *)
Theorem place_type_never_empty (tags : Tags) (t : string) :
  _get_place_type tags = Some t → t ≠ EmptyString.
Proof.
  intros Ht. destruct (_get_place_type_truthy tags) as [Hnone|Htruthy].
  - congruence.
  - rewrite Ht in Htruthy. by intros ->.
Qed.

(** X2: no place type exactly when no rule matches: the [place] value is
    not one of the enumerated ones, [amenity], [shop], [tourism],
    [leisure], [office], [aeroway] and [railway] are absent or empty, the
    address is not complete and there is no named land use. *)
Theorem place_type_none_iff (tags : Tags) :
  _get_place_type tags = None ↔
    Py.In (tags !! "place") PLACE_VALUES = false
    ∧ Py.truthy (tags !! "amenity") = false
    ∧ Py.truthy (tags !! "shop") = false
    ∧ Py.truthy (tags !! "tourism") = false
    ∧ Py.truthy (tags !! "addr:street")
      && Py.truthy (tags !! "addr:housenumber") = false
    ∧ Py.truthy (tags !! "leisure") = false
    ∧ Py.truthy (tags !! "office") = false
    ∧ Py.truthy (tags !! "aeroway") = false
    ∧ Py.truthy (tags !! "railway") = false
    ∧ Py.truthy (tags !! "name") && Py.truthy (tags !! "landuse") = false.
Proof.
  unfold _get_place_type. cbv zeta.
  destruct (Py.In (tags !! "place") PLACE_VALUES) eqn:Eplace.
  { split; [|by intros (? & _)]. intros Hnone.
    apply (In_truthy _ _ PLACE_VALUES_nonempty) in Eplace.
    rewrite Hnone in Eplace. done. }
  destruct (Py.truthy (tags !! "amenity")) eqn:Eamenity.
  { split; [|by intros (_ & ? & _)]. intros Hnone.
    by rewrite Hnone in Eamenity. }
  destruct (Py.truthy (tags !! "shop")) eqn:Eshop.
  { split; [done|by intros (_ & _ & ? & _)]. }
  destruct (Py.truthy (tags !! "tourism")) eqn:Etourism.
  { split; [|by intros (_ & _ & _ & ? & _)]. intros Hnone.
    by rewrite Hnone in Etourism. }
  destruct (Py.truthy (tags !! "addr:street")
            && Py.truthy (tags !! "addr:housenumber")).
  { split; [|by intros (_ & _ & _ & _ & ? & _)].
    by destruct (Py.truthy (tags !! "building")). }
  destruct (Py.truthy (tags !! "leisure")) eqn:Eleisure.
  { split; [|by intros (_ & _ & _ & _ & _ & ? & _)]. intros Hnone.
    by rewrite Hnone in Eleisure. }
  destruct (Py.truthy (tags !! "office")) eqn:Eoffice.
  { split; [done|by intros (_ & _ & _ & _ & _ & _ & ? & _)]. }
  destruct (Py.truthy (tags !! "aeroway")) eqn:Eaeroway.
  { split; [|by intros (_ & _ & _ & _ & _ & _ & _ & ? & _)]. intros Hnone.
    by rewrite Hnone in Eaeroway. }
  destruct (Py.truthy (tags !! "railway")) eqn:Erailway.
  { split; [|by intros (_ & _ & _ & _ & _ & _ & _ & _ & ? & _)]. intros Hnone.
    by rewrite Hnone in Erailway. }
  destruct (Py.truthy (tags !! "name")); simpl; [|done].
  destruct (Py.truthy (tags !! "landuse")) eqn:Elanduse; [|done].
  split; [|by intros (_ & _ & _ & _ & _ & _ & _ & _ & _ & ?)]. intros Hnone.
  by rewrite Hnone in Elanduse.
Qed.

(** X3: the place type depends on the thirteen keys that the rules read
    and on nothing else: setting or removing any other tag leaves it as it
    is. *)
Theorem place_type_other_tags (m : Tags) (k v : string) :
  k ∉ PLACE_TYPE_KEYS →
  _get_place_type (<[k := v]> m) = _get_place_type m
  ∧ _get_place_type (delete k m) = _get_place_type m.
Proof.
  intros Hk. unfold PLACE_TYPE_KEYS in Hk.
  repeat (apply not_elem_of_cons in Hk as [? Hk]).
  unfold _get_place_type. split.
  - by rewrite !lookup_insert_ne by done.
  - by rewrite !lookup_delete_ne by done.
Qed.

Lemma poi_category_loop_other_tags (items : list (string * string * string))
    (m : Tags) (k v : string) :
  (∀ v' c, (k, v', c) ∉ items) →
  poi_category_loop items (<[k := v]> m) = poi_category_loop items m.
Proof.
  induction items as [|[[k' v'] c] items IH]; intros Hk; simpl; [done|].
  assert (k ≠ k') as Hne.
  { intros ->. apply (Hk v' c). left. }
  rewrite lookup_insert_ne by done. rewrite IH; [done|].
  intros v'' c' Hin. apply (Hk v'' c'). by right.
Qed.

(** X4: the POI category depends only on the tags whose key is in the
    category table: setting any other tag leaves it as it is. *)
Theorem poi_category_other_tags (m : Tags) (k v : string) :
  (∀ c v', (c, (k, v')) ∉ POI_CATEGORIES) →
  poi_category (<[k := v]> m) = poi_category m.
Proof.
  intros Hk. apply poi_category_loop_other_tags. intros v' c.
  rewrite POI_TAG_TO_CATEGORY_eq. intros Hin.
  apply list_elem_of_fmap in Hin as ([c' [k' v'']] & [= -> -> ->] & Hin).
  by apply (Hk c' v'').
Qed.

(** X5: no category of the table is lost when the table is inverted: an
    entity that carries exactly the pair of a category gets that
    category. *)
Theorem every_category_assigned (c k v : string) :
  (c, (k, v)) ∈ POI_CATEGORIES → poi_category {[ k := v ]} = Some c.
Proof.
  intros Hin.
  assert (Forall (λ item : string * (string * string),
                    poi_category {[ item.2.1 := item.2.2 ]} = Some item.1)
            POI_CATEGORIES) as Hall
    by (apply (bool_decide_unpack _); vm_compute; exact I).
  rewrite Forall_forall in Hall. exact (Hall _ Hin).
Qed.

Lemma poi_category_loop_first (items : list (string * string * string))
    (tags : Tags) (i : nat) (k v c : string) :
  items !! i = Some (k, v, c) →
  tags !! k = Some v →
  (∀ j k' v' c', j < i → items !! j = Some (k', v', c') →
     tags !! k' ≠ Some v') →
  poi_category_loop items tags = Some c.
Proof.
  revert i. induction items as [|[[k0 v0] c0] items IH]; intros i Hi Hk Hno.
  { done. }
  destruct i as [|i]; simpl in *.
  - injection Hi as -> -> ->. by rewrite bool_decide_eq_true_2.
  - rewrite bool_decide_eq_false_2
      by (apply (Hno 0 k0 v0 c0); [lia|done]).
    apply (IH i); [done..|].
    intros j k' v' c' Hj Hlook. apply (Hno (S j) k' v' c'); [lia|done].
Qed.

Lemma poi_category_loop_Some (items : list (string * string * string))
    (tags : Tags) (c : string) :
  poi_category_loop items tags = Some c →
  ∃ k v, (k, v, c) ∈ items ∧ tags !! k = Some v.
Proof.
  induction items as [|[[k0 v0] c0] items IH]; simpl; [done|].
  case_bool_decide as Hk.
  - intros [= ->]. exists k0, v0. split; [left|done].
  - intros (k & v & Hin & Hkv)%IH. exists k, v. split; [by right|done].
Qed.

(** X6: when the pairs of several categories are on an entity, the
    category listed first in [POI_CATEGORIES] is the one it gets. *)
Theorem first_listed_category_wins (tags : Tags) (i : nat) (c k v : string) :
  POI_CATEGORIES !! i = Some (c, (k, v)) →
  tags !! k = Some v →
  (∀ j c' k' v', j < i → POI_CATEGORIES !! j = Some (c', (k', v')) →
     tags !! k' ≠ Some v') →
  poi_category tags = Some c.
Proof.
  intros Hi Hk Hno. unfold poi_category. rewrite POI_TAG_TO_CATEGORY_eq.
  apply (poi_category_loop_first _ tags i k v c); [|done|].
  - by rewrite list_lookup_fmap, Hi.
  - intros j k' v' c' Hj. rewrite list_lookup_fmap.
    destruct (POI_CATEGORIES !! j) as [[c0 [k0 v0]]|] eqn:Hlook; [|done].
    intros [= <- <- <-]. by apply (Hno j c0 k0 v0).
Qed.

(** ** Display-name composer: further properties *)

Lemma component_nonempty (v : option string) (s : string) :
  component v = Some s → s ≠ EmptyString.
Proof. by destruct v as [[|c v]|]; intros [= <-]. Qed.

Lemma street_component_nonempty (tags : Tags) (name : option string)
    (s : string) :
  street_component tags name = Some s → s ≠ EmptyString.
Proof.
  unfold street_component.
  destruct (tags !! "addr:street") as [[|c street]|]; simpl; [done| |done].
  destruct (tags !! "addr:housenumber") as [[|c' number]|]; simpl.
  - by destruct (Py.truthy name); intros [= <-].
  - by intros [= <-].
  - by destruct (Py.truthy name); intros [= <-].
Qed.

Lemma join_nonempty (sep x : string) (l : list string) :
  x ≠ EmptyString → Py.join sep (x :: l) ≠ EmptyString.
Proof.
  intros Hx. unfold Py.join. simpl.
  destruct x as [|c x]; [done|]. by destruct l.
Qed.

(** The list [parts] at the end of [_build_display_name]. *)
Lemma _build_display_name_parts (region_name : string) (tags : Tags)
    (name : option string) :
  _build_display_name region_name tags name =
    let parts :=
      option_list (component name)
      ++ option_list (street_component tags name)
      ++ option_list (component (tags !! "addr:city"))
      ++ option_list (component (tags !! "addr:state"))
      ++ option_list (component (tags !! "addr:country"))
      ++ option_list (component (tags !! "addr:postcode")) in
    if Py.nonempty parts then Py.join ", " parts else region_name.
Proof.
  unfold _build_display_name. cbv zeta.
  rewrite !append_component, append_street.
  by rewrite <- !app_assoc.
Qed.

Lemma option_list_nil {A} (o : option A) : option_list o = [] ↔ o = None.
Proof. by destruct o. Qed.

Lemma component_None (v : option string) :
  component v = None ↔ Py.truthy v = false.
Proof. by destruct v as [[|c s]|]. Qed.

Lemma join_parts_empty (parts : list string) (region_name : string) :
  Forall (λ part, part ≠ EmptyString) parts →
  (if Py.nonempty parts then Py.join ", " parts else region_name)
    = EmptyString
  ↔ parts = [] ∧ region_name = EmptyString.
Proof.
  intros Hparts. destruct parts as [|part parts]; simpl.
  - split; [done|by intros [_ ?]].
  - apply Forall_cons in Hparts as [Hpart _].
    split; [|by intros [? _]]. intros Hjoin.
    by apply (join_nonempty ", " part parts) in Hjoin.
Qed.

Lemma display_parts_nonempty (tags : Tags) (name : option string) :
  Forall (λ part, part ≠ EmptyString)
    (option_list (component name)
     ++ option_list (street_component tags name)
     ++ option_list (component (tags !! "addr:city"))
     ++ option_list (component (tags !! "addr:state"))
     ++ option_list (component (tags !! "addr:country"))
     ++ option_list (component (tags !! "addr:postcode"))).
Proof.
  repeat apply Forall_app_2;
    match goal with
    | |- Forall _ (option_list ?o) =>
        destruct o as [s|] eqn:Ho; [apply Forall_singleton|by constructor]
    end;
    eauto using component_nonempty, street_component_nonempty.
Qed.

Lemma display_name_parts_empty (region_name : string) (tags : Tags)
    (name : option string) :
  _build_display_name region_name tags name = EmptyString →
  Py.truthy name = false ∧ Py.truthy (tags !! "addr:street") = false.
Proof.
  rewrite _build_display_name_parts. cbv zeta.
  rewrite join_parts_empty by apply display_parts_nonempty.
  rewrite !app_nil, !option_list_nil, !component_None.
  rewrite street_component_truthy.
  intros ((Hname & Hstreet & _) & _). rewrite Hname in Hstreet.
  split; [done|].
  destruct (Py.truthy (tags !! "addr:street")); [|done].
  by destruct (Py.truthy (tags !! "addr:housenumber")).
Qed.

(** X7: the display name is empty only when the region label is empty and
    the name, the street, the city, the state, the country and the postcode
    are all absent or empty. *)
Theorem display_name_empty_iff (region_name : string) (tags : Tags)
    (name : option string) :
  _build_display_name region_name tags name = EmptyString ↔
    region_name = EmptyString
    ∧ Py.truthy name = false
    ∧ Py.truthy (tags !! "addr:street") = false
    ∧ Py.truthy (tags !! "addr:city") = false
    ∧ Py.truthy (tags !! "addr:state") = false
    ∧ Py.truthy (tags !! "addr:country") = false
    ∧ Py.truthy (tags !! "addr:postcode") = false.
Proof.
  rewrite _build_display_name_parts. cbv zeta.
  rewrite join_parts_empty by apply display_parts_nonempty.
  rewrite !app_nil, !option_list_nil, !component_None.
  rewrite street_component_truthy.
  split.
  - intros ((Hname & Hstreet & ?) & ?). rewrite Hname in Hstreet.
    split; [done|]. split; [done|]. split; [|done].
    destruct (Py.truthy (tags !! "addr:street")); [|done].
    by destruct (Py.truthy (tags !! "addr:housenumber")).
  - intros (? & Hname & Hstreet & ?). rewrite Hstreet. done.
Qed.

(** ** Record extractor: further properties *)

Lemma CATEGORY_names_nonempty :
  Forall (λ item : string * (string * string), item.1 ≠ EmptyString)
    POI_CATEGORIES.
Proof. apply (bool_decide_unpack _). by vm_compute. Qed.

Lemma poi_category_truthy (tags : Tags) :
  Py.truthy (poi_category tags) = true ↔ is_Some (poi_category tags).
Proof.
  split.
  - by intros (c & s & ->)%truthy_Some.
  - intros [c Hc]. rewrite Hc.
    apply poi_category_loop_Some in Hc as (k & v & Hin & _).
    rewrite POI_TAG_TO_CATEGORY_eq in Hin.
    apply list_elem_of_fmap in Hin as ([c' [k' v']] & [= -> -> ->] & Hin).
    pose proof CATEGORY_names_nonempty as Hall.
    rewrite Forall_forall in Hall. specialize (Hall _ Hin). simpl in Hall.
    by destruct c'.
Qed.

Lemma poi_category_loop_match (items : list (string * string * string))
    (tags : Tags) (k v c : string) :
  (k, v, c) ∈ items → tags !! k = Some v →
  is_Some (poi_category_loop items tags).
Proof.
  induction items as [|[[k0 v0] c0] items IH]; intros Hin Hk.
  { by apply elem_of_nil in Hin. }
  simpl. case_bool_decide; [by eexists|].
  apply elem_of_cons in Hin as [[= -> -> ->]|Hin]; [done|]. by apply IH.
Qed.

Section MoreProperties.
Context `{PyFloat}.

Lemma _extract_place_eq (self : PlaceHandler) (obj : OSMObject) (tags : Tags)
    (lat lon : float) :
  obj_tags obj = Ok tags →
  _extract_place self obj lat lon =
    Ok (if (Py.truthy (tags !! "name") || Py.truthy (tags !! "addr:street"))
           && Py.truthy (_get_place_type tags)
        then Some
          {| place_osm_id := obj_id obj;
             place_osm_type := if obj_has_location obj then "node" else "way";
             place_lat := lat;
             place_lon := lon;
             place_name :=
               Py.or (tags !! "name")
                 (Py.strip (Py.str (tags !! "addr:housenumber") +:+ " "
                            +:+ Py.str (tags !! "addr:street")));
             place_display_name :=
               _build_display_name (region_name self) tags (tags !! "name");
             place_type := Py.str (_get_place_type tags);
             place_street := Py.or (tags !! "addr:street") EmptyString;
             place_housenumber :=
               Py.or (tags !! "addr:housenumber") EmptyString;
             place_city := Py.get tags "addr:city" EmptyString;
             place_postcode := Py.get tags "addr:postcode" EmptyString;
             place_state := Py.get tags "addr:state" (region_name self);
             place_country := Py.get tags "addr:country" EmptyString |}
        else None).
Proof.
  intros Htags. unfold _extract_place. rewrite Htags.
  change (Ok tags ≫= ?k) with (k tags). cbv beta zeta.
  destruct (Py.truthy (tags !! "name")),
    (Py.truthy (tags !! "addr:street")),
    (Py.truthy (_get_place_type tags)); reflexivity.
Qed.

(** X8: a Place is emitted exactly when the name or the street has a
    non-empty value and a place-type rule matches. *)
Theorem place_emitted_iff (self : PlaceHandler) (obj : OSMObject)
    (tags : Tags) (lat lon : float) :
  obj_tags obj = Ok tags →
  (∃ p, _extract_place self obj lat lon = Ok (Some p)) ↔
    (Py.truthy (tags !! "name") = true
     ∨ Py.truthy (tags !! "addr:street") = true)
    ∧ is_Some (_get_place_type tags).
Proof.
  intros Htags. rewrite (_extract_place_eq self obj tags lat lon Htags).
  destruct (_get_place_type_truthy tags) as [Hnone|Htype].
  - rewrite Hnone. simpl. rewrite andb_false_r. split.
    + by intros [p [=]].
    + by intros [_ [t [=]]].
  - rewrite Htype, andb_true_r. split.
    + intros [p Hp]. split.
      * destruct (Py.truthy (tags !! "name")); [by left|].
        destruct (Py.truthy (tags !! "addr:street")); [by right|done].
      * by apply truthy_Some in Htype as (c & s & ->).
    + intros [[-> | ->] _]; rewrite ?orb_true_r; by eexists.
Qed.

(** X9: every Place that is emitted has the type the classifier gives,
    which is not empty, a display name that is not empty whatever the
    region label is, the identifier of its entity and the coordinate it
    was extracted with. *)
Theorem emitted_place_fields (self : PlaceHandler) (obj : OSMObject)
    (tags : Tags) (lat lon : float) (p : Place) :
  obj_tags obj = Ok tags →
  _extract_place self obj lat lon = Ok (Some p) →
  _get_place_type tags = Some (place_type p)
  ∧ place_type p ≠ EmptyString
  ∧ place_display_name p ≠ EmptyString
  ∧ place_osm_id p = obj_id obj
  ∧ place_lat p = lat ∧ place_lon p = lon.
Proof.
  intros Htags. rewrite (_extract_place_eq self obj tags lat lon Htags).
  destruct (Py.truthy (tags !! "name") || Py.truthy (tags !! "addr:street"))
    eqn:Hnamed; [|done].
  destruct (Py.truthy (_get_place_type tags)) eqn:Htype; [|done].
  intros [= <-]. simpl.
  apply truthy_Some in Htype as (c & t & Htype). rewrite Htype. simpl.
  split; [done|]. split; [done|]. split; [|done].
  intros Hempty. apply display_name_parts_empty in Hempty as (Hname & Hstreet).
  by rewrite Hname, Hstreet in Hnamed.
Qed.

Lemma _extract_poi_eq (obj : OSMObject) (tags : Tags) (lat lon : float) :
  obj_tags obj = Ok tags →
  _extract_poi obj lat lon =
    Ok (if Py.truthy (poi_category tags)
        then Some
          {| poi_osm_id := obj_id obj;
             poi_osm_type := if obj_has_location obj then "node" else "way";
             poi_lat := lat;
             poi_lon := lon;
             poi_name := Py.get tags "name" EmptyString;
             poi_category_ := Py.str (poi_category tags);
             poi_address :=
               Py.join ", "
                 (option_list (component (tags !! "addr:housenumber"))
                  ++ option_list (component (tags !! "addr:street"))
                  ++ option_list (component (tags !! "addr:city"))
                  ++ option_list (component (tags !! "addr:postcode")));
             poi_phone :=
               Py.get tags "phone" (Py.get tags "contact:phone" EmptyString);
             poi_website :=
               Py.get tags "website"
                 (Py.get tags "contact:website" EmptyString);
             poi_opening_hours := Py.get tags "opening_hours" EmptyString |}
        else None).
Proof.
  intros Htags. unfold _extract_poi. rewrite Htags.
  change (Ok tags ≫= ?k) with (k tags). cbv beta zeta.
  destruct (Py.truthy (poi_category tags)); simpl negb; cbv iota; [|done].
  repeat (rewrite addr_part_Ok; change (Ok ?x ≫= ?k) with (k x); cbv beta).
  rewrite !append_component, <- !app_assoc. simpl app.
  do 3 f_equal.
  by destruct (option_list (component (tags !! "addr:housenumber")) ++ _).
Qed.

(** X10: a POI is emitted exactly when the pair of some category of the
    table is on the entity, and its category is then the name of a table
    entry whose pair is on the entity. *)
Theorem poi_emitted_iff (obj : OSMObject) (tags : Tags) (lat lon : float) :
  obj_tags obj = Ok tags →
  ((∃ q, _extract_poi obj lat lon = Ok (Some q)) ↔
     ∃ c k v, (c, (k, v)) ∈ POI_CATEGORIES ∧ tags !! k = Some v)
  ∧ (∀ q, _extract_poi obj lat lon = Ok (Some q) →
       ∃ k v, (poi_category_ q, (k, v)) ∈ POI_CATEGORIES
              ∧ tags !! k = Some v).
Proof.
  intros Htags. rewrite (_extract_poi_eq obj tags lat lon Htags).
  assert (∀ c, poi_category tags = Some c →
               ∃ k v, (c, (k, v)) ∈ POI_CATEGORIES ∧ tags !! k = Some v)
    as Hsound.
  { intros c (k & v & Hin & Hk)%poi_category_loop_Some.
    rewrite POI_TAG_TO_CATEGORY_eq in Hin.
    apply list_elem_of_fmap in Hin as ([c' [k' v']] & [= -> -> ->] & Hin).
    by exists k', v'. }
  destruct (Py.truthy (poi_category tags)) eqn:Hcat.
  - apply poi_category_truthy in Hcat as [c Hc]. rewrite Hc. simpl. split.
    + split; [|by eexists]. intros _.
      destruct (Hsound c Hc) as (k & v & ? & ?). by exists c, k, v.
    + intros q [= <-]. simpl. by apply Hsound.
  - split; [|done]. split; [by intros [q [=]]|].
    intros (c & k & v & Hin & Hk).
    assert (is_Some (poi_category tags)) as Hsome.
    { apply (poi_category_loop_match _ tags k v c); [|done].
      rewrite POI_TAG_TO_CATEGORY_eq.
      by apply (list_elem_of_fmap_2 (λ item, (item.2, item.1)) _ (c, (k, v))). }
    apply poi_category_truthy in Hsome. congruence.
Qed.

(** X11: the address of a POI is the list of the non-empty values of
    [addr:housenumber], [addr:street], [addr:city] and [addr:postcode], in
    this order, joined by a comma and a space (the empty string when there
    is none); its phone is the value of [phone] when that tag is present,
    even if empty, otherwise of [contact:phone], otherwise empty, and
    likewise for the website. *)
Theorem emitted_poi_fields (obj : OSMObject) (tags : Tags)
    (lat lon : float) (q : POI) :
  obj_tags obj = Ok tags →
  _extract_poi obj lat lon = Ok (Some q) →
  poi_address q =
    Py.join ", "
      (omap id [ component (tags !! "addr:housenumber");
                 component (tags !! "addr:street");
                 component (tags !! "addr:city");
                 component (tags !! "addr:postcode") ])
  ∧ poi_phone q =
      match tags !! "phone" with
      | Some v => v
      | None => default EmptyString (tags !! "contact:phone")
      end
  ∧ poi_website q =
      match tags !! "website" with
      | Some v => v
      | None => default EmptyString (tags !! "contact:website")
      end
  ∧ poi_name q = default EmptyString (tags !! "name").
Proof.
  intros Htags. rewrite (_extract_poi_eq obj tags lat lon Htags).
  destruct (Py.truthy (poi_category tags)); [|done].
  intros [= <-]. cbn [poi_address poi_phone poi_website poi_name].
  unfold Py.get. rewrite !omap_id_cons. simpl omap. rewrite app_nil_r.
  split; [done|]. split; [by destruct (tags !! "phone")|].
  split; [by destruct (tags !! "website")|done].
Qed.

(** ** Handler: further properties *)

Lemma record_place_fields (place : Place) (self : PlaceHandler) :
  let self' := (record_place place self).2 in
  places self' = places self ++ [place]
  ∧ pois self' = pois self
  ∧ place_count self' = (place_count self + 1)%Z
  ∧ poi_count self' = poi_count self
  ∧ printed self' =
      printed self
      ++ (if (place_count self + 1) `mod` 50000 =? 0
          then ["  Processed " +:+ pretty (place_count self + 1)
                +:+ " places..."]
          else [])%Z.
Proof.
  unfold record_place, mbind, M_bind, modify, get_self, print, mret, M_ret.
  simpl. destruct (_ =? _)%Z; simpl; by rewrite ?app_nil_r.
Qed.

Lemma record_poi_fields (poi : POI) (self : PlaceHandler) :
  let self' := (record_poi poi self).2 in
  places self' = places self
  ∧ pois self' = pois self ++ [poi]
  ∧ place_count self' = place_count self
  ∧ poi_count self' = (poi_count self + 1)%Z
  ∧ printed self' = printed self.
Proof. by unfold record_poi, mbind, M_bind, modify. Qed.

(** The handler after an entity: at most one Place and at most one POI
    have been stored, in this order. *)
Lemma extraction_steps_state (obj : OSMObject) (lat lon : float)
    (fp : Place → Place) (fq : POI → POI) (self : PlaceHandler) :
  ∃ place poi,
    (extraction_steps obj lat lon fp fq self).2
      = after_poi (fq <$> poi) (after_place (fp <$> place) self)
    ∧ (∀ p, place = Some p →
         place_osm_id p = obj_id obj ∧ place_lat p = lat ∧ place_lon p = lon)
    ∧ (∀ q, poi = Some q →
         poi_osm_id q = obj_id obj ∧ poi_lat q = lat ∧ poi_lon q = lon).
Proof.
  unfold extraction_steps. destruct (obj_tags obj) as [tags|e] eqn:Htags.
  - rewrite (_extract_place_eq self obj tags lat lon Htags).
    rewrite (_extract_poi_eq obj tags lat lon Htags).
    eexists _, _. split; [reflexivity|]. split.
    + intros p. by destruct (_ && _); intros [= <-].
    + intros q. by destruct (Py.truthy _); intros [= <-].
  - rewrite (_extract_place_Raise self obj e lat lon Htags).
    by exists None, None.
Qed.

Lemma handle_state (obj : OSMObject) (self : PlaceHandler) :
  ∃ place poi,
    (handle obj self).2 = after_poi poi (after_place place self)
    ∧ (∀ p, place = Some p →
         place_osm_id p = obj_id obj ∧ place_osm_type p = obj_kind obj)
    ∧ (∀ q, poi = Some q →
         poi_osm_id q = obj_id obj ∧ poi_osm_type q = obj_kind obj).
Proof.
  destruct obj as [n|w]; simpl handle.
  - rewrite node_run. destruct (loc_valid (n_location n));
      [|by exists None, None].
    unfold extraction_steps.
    destruct (obj_tags (NodeObj n)) as [tags|e] eqn:Htags.
    + rewrite (_extract_place_eq self (NodeObj n) tags _ _ Htags).
      rewrite (_extract_poi_eq (NodeObj n) tags _ _ Htags).
      eexists _, _. split; [reflexivity|]. split.
      * intros p. rewrite option_fmap_id. by destruct (_ && _); intros [= <-].
      * intros q. rewrite option_fmap_id.
        by destruct (Py.truthy _); intros [= <-].
    + rewrite (_extract_place_Raise self (NodeObj n) e _ _ Htags).
      by exists None, None.
  - rewrite way_run, way_body_run.
    destruct (valid_vertices w) as [|v vs]; cbv beta iota zeta;
      [by exists None, None|].
    destruct (extraction_steps_state (WayObj w)
                (mean (loc_lat <$> v :: vs)) (mean (loc_lon <$> v :: vs))
                (place_set_osm_type "way") (poi_set_osm_type "way") self)
      as (place & poi & -> & Hp & Hq).
    eexists _, _. split; [reflexivity|]. split.
    + intros p' (p & -> & ->)%fmap_Some. by destruct (Hp p eq_refl).
    + intros q' (q & -> & ->)%fmap_Some. by destruct (Hq q eq_refl).
Qed.

(** X12: what a call of [node] or [way] stores: at most one Place and at
    most one POI, appended to the records that are there, each with the
    identifier of the entity and with [node] or [way] as its kind. *)
Theorem handle_stores (obj : OSMObject) (self : PlaceHandler) :
  ∃ new_places new_pois,
    places (handle obj self).2 = places self ++ new_places
    ∧ pois (handle obj self).2 = pois self ++ new_pois
    ∧ length new_places ≤ 1 ∧ length new_pois ≤ 1
    ∧ Forall (λ p, place_osm_id p = obj_id obj
                   ∧ place_osm_type p = obj_kind obj) new_places
    ∧ Forall (λ q, poi_osm_id q = obj_id obj
                   ∧ poi_osm_type q = obj_kind obj) new_pois.
Proof.
  destruct (handle_state obj self) as (place & poi & -> & Hp & Hq).
  exists (option_list place), (option_list poi).
  destruct (after_poi_spec poi (after_place place self)) as (-> & -> & _).
  destruct (after_place_spec place self) as (-> & -> & _).
  split; [done|]. split; [done|].
  split; [by destruct place; simpl; lia|].
  split; [by destruct poi; simpl; lia|].
  split.
  - destruct place as [p|]; [|by constructor].
    apply Forall_singleton. by apply Hp.
  - destruct poi as [q|]; [|by constructor].
    apply Forall_singleton. by apply Hq.
Qed.

Lemma after_place_counters (place : option Place) (self : PlaceHandler) :
  place_count self = Z.of_nat (length (places self)) →
  poi_count self = Z.of_nat (length (pois self)) →
  place_count (after_place place self)
    = Z.of_nat (length (places (after_place place self)))
  ∧ poi_count (after_place place self)
    = Z.of_nat (length (pois (after_place place self))).
Proof.
  intros Hp Hq. destruct place as [p|]; unfold after_place; [|done].
  destruct (record_place_fields p self) as (-> & -> & -> & -> & _).
  rewrite length_app. simpl. lia.
Qed.

Lemma after_poi_counters (poi : option POI) (self : PlaceHandler) :
  place_count self = Z.of_nat (length (places self)) →
  poi_count self = Z.of_nat (length (pois self)) →
  place_count (after_poi poi self)
    = Z.of_nat (length (places (after_poi poi self)))
  ∧ poi_count (after_poi poi self)
    = Z.of_nat (length (pois (after_poi poi self))).
Proof.
  intros Hp Hq. destruct poi as [q|]; unfold after_poi; [|done].
  destruct (record_poi_fields q self) as (-> & -> & -> & -> & _).
  rewrite length_app. simpl. lia.
Qed.

Lemma apply_file_counters (entities : list OSMObject) (self : PlaceHandler) :
  place_count self = Z.of_nat (length (places self)) →
  poi_count self = Z.of_nat (length (pois self)) →
  place_count (apply_file entities self).2
    = Z.of_nat (length (places (apply_file entities self).2))
  ∧ poi_count (apply_file entities self).2
    = Z.of_nat (length (pois (apply_file entities self).2)).
Proof.
  revert self. induction entities as [|obj rest IH]; intros self Hp Hq.
  { done. }
  rewrite apply_file_cons.
  destruct (handle_state obj self) as (place & poi & Hstate & _).
  destruct (after_place_counters place self Hp Hq) as [Hp1 Hq1].
  destruct (after_poi_counters poi _ Hp1 Hq1) as [Hp2 Hq2].
  rewrite <- Hstate in Hp2, Hq2.
  destruct (handle obj self) as [[[]|e] self']; simpl in *; [|done].
  by apply IH.
Qed.

(** X13: the two counters of the handler are the numbers of the records
    it holds, at every point of a run, also when the run ends by an
    exception. *)
Theorem counters_count_records (region : string)
    (entities : list OSMObject) :
  let self := (apply_file entities (PlaceHandler_init region)).2 in
  place_count self = Z.of_nat (length (places self))
  ∧ poi_count self = Z.of_nat (length (pois self)).
Proof. by apply apply_file_counters. Qed.

(** X14: a run only appends: the records the handler held before are
    still there, in front and unchanged, also when the run ends by an
    exception, and it adds at most one Place and one POI per entity. *)
Theorem apply_file_appends (entities : list OSMObject)
    (self : PlaceHandler) :
  ∃ new_places new_pois,
    places (apply_file entities self).2 = places self ++ new_places
    ∧ pois (apply_file entities self).2 = pois self ++ new_pois
    ∧ length new_places ≤ length entities
    ∧ length new_pois ≤ length entities.
Proof.
  revert self. induction entities as [|obj rest IH]; intros self.
  { exists [], []. by rewrite !app_nil_r. }
  rewrite apply_file_cons.
  destruct (handle_state obj self) as (place & poi & Hstate & _).
  destruct (after_poi_spec poi (after_place place self)) as (Hp & Hq & _).
  destruct (after_place_spec place self) as (Hp' & Hq' & _).
  rewrite <- Hstate, Hp' in Hp. rewrite <- Hstate, Hq' in Hq.
  assert (length (option_list place) ≤ 1) by (by destruct place; simpl; lia).
  assert (length (option_list poi) ≤ 1) by (by destruct poi; simpl; lia).
  destruct (handle obj self) as [[[]|e] self']; simpl in *.
  - destruct (IH self') as (new_places & new_pois & -> & -> & ? & ?).
    rewrite Hp, Hq, <- !app_assoc.
    eexists _, _. split; [reflexivity|]. split; [reflexivity|].
    rewrite !length_app. lia.
  - eexists _, _. split; [exact Hp|]. split; [exact Hq|]. lia.
Qed.






(** X16: the vertices of a way without a valid location play no role:
    two ways with the same identifier, the same tags and the same valid
    vertices are processed alike. *)
Theorem way_ignores_invalid_vertices (w1 w2 : Way) (self : PlaceHandler) :
  w_id w1 = w_id w2 →
  w_tags w1 = w_tags w2 →
  valid_vertices w1 = valid_vertices w2 →
  way w1 self = way w2 self.
Proof.
  intros Hid Htags Hvalid. rewrite !way_run, !way_body_run, Hvalid.
  destruct (valid_vertices w2) as [|v vs]; cbv beta iota zeta; [done|].
  do 2 f_equal. unfold extraction_steps.
  destruct (w_tags w2) as [tags|e] eqn:Htags2.
  - rewrite (_extract_place_eq self (WayObj w1) tags) by (by rewrite <- Htags).
    rewrite (_extract_place_eq self (WayObj w2) tags) by done.
    rewrite (_extract_poi_eq (WayObj w1) tags) by (by rewrite <- Htags).
    rewrite (_extract_poi_eq (WayObj w2) tags) by done.
    cbn [obj_id obj_has_location]. by rewrite Hid.
  - rewrite (_extract_place_Raise self (WayObj w1) e) by (by rewrite <- Htags).
    by rewrite (_extract_place_Raise self (WayObj w2) e).
Qed.

(** ** Coordinates of a way *)

(** C7: a way is resolved to the mean of the latitudes and the mean of
    the longitudes of exactly its vertices with a valid location: the sum
    of the values, added up in the order of the vertices, divided by their
    number. Every record the way yields has this coordinate, and a way
    with a valid vertex does yield its records: a Place when its tags call
    for one, a POI when a category of the table matches. A way without a
    valid vertex yields no Place and no POI and leaves the handler as it
    was (the division is behind the emptiness test). *)
Theorem way_coordinates (w : Way) (self : PlaceHandler) :
  let lats := loc_lat <$> valid_vertices w in
  let lons := loc_lon <$> valid_vertices w in
  let lat :=
    float_div (fold_left float_add lats (float_of_int 0))
      (float_of_int (Z.of_nat (length lats))) in
  let lon :=
    float_div (fold_left float_add lons (float_of_int 0))
      (float_of_int (Z.of_nat (length lons))) in
  ∃ self' new_places new_pois,
    way w self = (Ok tt, self')
    ∧ places self' = places self ++ new_places
    ∧ pois self' = pois self ++ new_pois
    ∧ Forall (λ p, place_lat p = lat ∧ place_lon p = lon) new_places
    ∧ Forall (λ q, poi_lat q = lat ∧ poi_lon q = lon) new_pois
    ∧ (valid_vertices w = [] →
       self' = self ∧ new_places = [] ∧ new_pois = [])
    ∧ (valid_vertices w ≠ [] → ∀ tags, w_tags w = Ok tags →
       ((Py.truthy (tags !! "name") = true
         ∨ Py.truthy (tags !! "addr:street") = true)
        ∧ is_Some (_get_place_type tags) → length new_places = 1)
       ∧ (is_Some (poi_category tags) → length new_pois = 1)).
Proof.
  cbv zeta. rewrite way_run, way_body_run.
  destruct (valid_vertices w) as [|v vs]; cbv beta iota zeta.
  { exists self, [], []. rewrite !app_nil_r. by repeat split. }
  change (mean (loc_lat <$> v :: vs))
    with (float_div (py_sum (loc_lat <$> v :: vs))
            (float_of_int (Z.of_nat (length (loc_lat <$> v :: vs))))).
  change (mean (loc_lon <$> v :: vs))
    with (float_div (py_sum (loc_lon <$> v :: vs))
            (float_of_int (Z.of_nat (length (loc_lon <$> v :: vs))))).
  unfold py_sum.
  set (lat := float_div _ _). set (lon := float_div _ _).
  destruct (extraction_steps_spec (WayObj w) lat lon
              (place_set_osm_type "way") (poi_set_osm_type "way") self)
    as (self' & -> & Hp & Hq & _).
  do 3 eexists. split; [reflexivity|]. split; [exact Hp|].
  split; [exact Hq|].
  destruct (w_tags w) as [tags|e] eqn:Htags.
  - rewrite (_extract_place_eq self (WayObj w) tags lat lon Htags).
    rewrite (_extract_poi_eq (WayObj w) tags lat lon Htags).
    split; [|split; [|split; [done|]]].
    + destruct (_ && _); by repeat constructor.
    + destruct (Py.truthy (poi_category tags)); by repeat constructor.
    + intros _ tags' [= <-]. split.
      * intros [Hnamed Htype].
        destruct (_get_place_type_truthy tags) as [Hnone | ->].
        { rewrite Hnone in Htype. by destruct Htype. }
        by destruct Hnamed as [-> | ->]; rewrite ?orb_true_r.
      * intros Hcat. apply poi_category_truthy in Hcat. by rewrite Hcat.
  - rewrite (_extract_place_Raise self (WayObj w) e lat lon Htags).
    rewrite (_extract_poi_Raise (WayObj w) e lat lon Htags).
    split; [done|]. split; [done|]. split; [done|]. by intros _ tags.
Qed.

End MoreProperties.

Section ProgressProperties.
Context `{PyFloat}.

Lemma div_step (c : Z) :
  (0 ≤ c)%Z →
  ((c + 1) `div` 50000
   = c `div` 50000 + if (c + 1) `mod` 50000 =? 0 then 1 else 0)%Z
  ∧ ((c + 1) `mod` 50000 = 0 → c + 1 = 50000 * (c `div` 50000 + 1))%Z.
Proof.
  intros Hc. destruct (Z.eqb_spec ((c + 1) `mod` 50000) 0) as [Hz|Hnz];
    Z.to_euclidean_division_equations; lia.
Qed.

Lemma after_place_printed (place : option Place) (self : PlaceHandler) :
  (0 ≤ place_count self)%Z →
  printed self
    = (λ k, "  Processed " +:+ pretty (50000 * k)%Z +:+ " places...")
        <$> seqZ 1 (place_count self `div` 50000) →
  (0 ≤ place_count (after_place place self))%Z
  ∧ printed (after_place place self)
    = (λ k, "  Processed " +:+ pretty (50000 * k)%Z +:+ " places...")
        <$> seqZ 1 (place_count (after_place place self) `div` 50000).
Proof.
  intros Hc Hprinted. destruct place as [p|]; unfold after_place; [|done].
  destruct (record_place_fields p self) as (_ & _ & -> & _ & ->).
  split; [lia|]. rewrite Hprinted.
  destruct (div_step (place_count self) Hc) as [-> Hline].
  destruct (_ =? 0)%Z eqn:Hmod.
  - apply Z.eqb_eq in Hmod.
    rewrite seqZ_app by (try lia; by apply Z.div_pos).
    rewrite fmap_app. f_equal.
    rewrite seqZ_cons, seqZ_nil by lia. cbn [fmap list_fmap].
    replace (1 + place_count self `div` 50000)%Z
      with (place_count self `div` 50000 + 1)%Z by lia.
    by rewrite <- (Hline Hmod).
  - by rewrite Z.add_0_r, app_nil_r.
Qed.

Lemma apply_file_printed (entities : list OSMObject) (self : PlaceHandler) :
  (0 ≤ place_count self)%Z →
  printed self
    = (λ k, "  Processed " +:+ pretty (50000 * k)%Z +:+ " places...")
        <$> seqZ 1 (place_count self `div` 50000) →
  printed (apply_file entities self).2
    = (λ k, "  Processed " +:+ pretty (50000 * k)%Z +:+ " places...")
        <$> seqZ 1 (place_count (apply_file entities self).2 `div` 50000)
  ∧ (0 ≤ place_count (apply_file entities self).2)%Z.
Proof.
  revert self. induction entities as [|obj rest IH]; intros self Hc Hprinted.
  { done. }
  rewrite apply_file_cons.
  destruct (handle_state obj self) as (place & poi & Hstate & _).
  destruct (after_place_printed place self Hc Hprinted) as [Hc1 Hprinted1].
  assert (place_count (handle obj self).2
            = place_count (after_place place self)
          ∧ printed (handle obj self).2 = printed (after_place place self))
    as [Hcount Hlines].
  { rewrite Hstate. destruct poi as [q|]; [|done]. unfold after_poi.
    by destruct (record_poi_fields q (after_place place self))
      as (_ & _ & -> & _ & ->). }
  rewrite <- Hcount in Hc1. rewrite <- Hcount, <- Hlines in Hprinted1.
  destruct (handle obj self) as [[[]|e] self']; simpl in *; [|done].
  by apply IH.
Qed.

(** X17: a progress line is written once for every 50000 places, when the
    count of places reaches a multiple of 50000, and it shows that count:
    at every point of a run the lines written are those for 50000,
    100000, ... up to the count of places. *)
Theorem progress_lines (region : string) (entities : list OSMObject) :
  let self := (apply_file entities (PlaceHandler_init region)).2 in
  printed self
    = (λ k, "  Processed " +:+ pretty (50000 * k)%Z +:+ " places...")
        <$> seqZ 1 (place_count self `div` 50000).
Proof.
  intros self.
  by destruct (apply_file_printed entities (PlaceHandler_init region)).
Qed.

End ProgressProperties.

(** ** Index builder: further properties *)

Lemma foldr_max_seq (a n : nat) :
  foldr Z.max 0%Z (Z.of_nat <$> seq a n)
  = Z.of_nat (match n with 0 => 0 | S _ => a + n - 1 end).
Proof.
  revert a. induction n as [|n IH]; intros a; [done|].
  simpl seq. rewrite fmap_cons. simpl foldr. rewrite IH.
  destruct n; lia.
Qed.

Lemma executemany_insert_snoc {A} (table : list (Z * A)) (rows : list A)
    (row : A) :
  executemany_insert table (rows ++ [row])
  = insert_row (executemany_insert table rows) row.
Proof. unfold executemany_insert. by rewrite fold_left_app. Qed.

(** Bulk insertion into an empty table numbers the rows from 1 on, in
    their order. *)
Lemma executemany_insert_empty {A} (rows : list A) :
  executemany_insert [] rows = zip (Z.of_nat <$> seq 1 (length rows)) rows.
Proof.
  induction rows as [|row rows IH] using rev_ind; [done|].
  rewrite executemany_insert_snoc, IH, length_app. simpl length.
  rewrite Nat.add_1_r, seq_S, fmap_app. simpl.
  rewrite zip_with_app by (by rewrite length_fmap, length_seq).
  unfold insert_row, next_rowid. f_equal. simpl. f_equal. f_equal.
  rewrite fst_zip by (by rewrite length_fmap, length_seq).
  rewrite foldr_max_seq. destruct (length rows); lia.
Qed.

Lemma table_get_cons {A} (i : Z) (row : A) (table : list (Z * A)) (id : Z) :
  table_get ((i, row) :: table) id
  = if decide (i = id) then Some row else table_get table id.
Proof.
  unfold table_get. simpl. destruct (decide (i = id)); [done|].
  by destruct (list_find _ table) as [[j r]|].
Qed.

Lemma table_get_zip_seq {A} (rows : list A) (a : nat) (id : Z) :
  table_get (zip (Z.of_nat <$> seq a (length rows)) rows) id
  = if bool_decide (Z.of_nat a ≤ id)%Z
    then rows !! Z.to_nat (id - Z.of_nat a)
    else None.
Proof.
  revert a. induction rows as [|row rows IH]; intros a.
  { simpl. by case_bool_decide. }
  simpl length. simpl seq. rewrite fmap_cons. simpl zip.
  rewrite table_get_cons, IH.
  destruct (decide (Z.of_nat a = id)) as [<-|Hne].
  - rewrite bool_decide_eq_true_2 by lia.
    by replace (Z.to_nat (Z.of_nat a - Z.of_nat a)) with 0 by lia.
  - repeat case_bool_decide; try lia; [|done].
    replace (Z.to_nat (id - Z.of_nat a))
      with (S (Z.to_nat (id - Z.of_nat (S a)))) by lia.
    done.
Qed.

Lemma table_get_fmap {A B} (f : A → B) (table : list (Z * A)) (id : Z) :
  table_get ((λ r, (r.1, f r.2)) <$> table) id = f <$> table_get table id.
Proof.
  induction table as [|[i row] table IH]; [done|].
  rewrite fmap_cons. simpl. rewrite !table_get_cons, IH.
  by destruct (decide (i = id)).
Qed.

Lemma metadata_get_cons (k v : string) (md : list (string * string))
    (key : string) :
  metadata_get ((k, v) :: md) key
  = if decide (k = key) then Some v else metadata_get md key.
Proof.
  unfold metadata_get. simpl. destruct (decide (k = key)); [done|].
  by destruct (list_find _ md) as [[j r]|].
Qed.

Lemma metadata_get_snoc (md : list (string * string)) (k v key : string) :
  metadata_get (md ++ [(k, v)]) key
  = match metadata_get md key with
    | Some x => Some x
    | None => if decide (k = key) then Some v else None
    end.
Proof.
  induction md as [|[k0 v0] md IH]; simpl.
  - by rewrite metadata_get_cons.
  - rewrite !metadata_get_cons, IH. by destruct (decide (k0 = key)).
Qed.

Lemma metadata_get_None (md : list (string * string)) (key : string) :
  metadata_get md key = None ↔ key ∉ md.*1.
Proof.
  induction md as [|[k v] md IH]; simpl.
  - split; [intros _; apply not_elem_of_nil|done].
  - rewrite metadata_get_cons, not_elem_of_cons.
    destruct (decide (k = key)) as [->|Hne].
    + split; [done|by intros [? _]].
    + rewrite IH. split; [|by intros [_ ?]].
      intros Hnot. split; [congruence|done].
Qed.

(** X18: the metadata relation is a map with unique keys: inserting a key
    that is there raises and inserts nothing; inserting a new key succeeds,
    the key then reads as the value inserted, and every other key reads as
    before. *)
Theorem metadata_insert_lookup (md : list (string * string))
    (key value : string) :
  (is_Some (metadata_get md key) →
     ∃ e, metadata_insert md key value = Raise e)
  ∧ (metadata_get md key = None →
     ∃ md', metadata_insert md key value = Ok md'
       ∧ metadata_get md' key = Some value
       ∧ ∀ key', key' ≠ key → metadata_get md' key' = metadata_get md key').
Proof.
  unfold metadata_insert. split.
  - intros Hsome. rewrite bool_decide_eq_true_2; [by eexists|].
    destruct (decide (key ∈ md.*1)) as [|Hnot]; [done|].
    apply metadata_get_None in Hnot. rewrite Hnot in Hsome.
    by destruct Hsome.
  - intros Hnone. rewrite bool_decide_eq_false_2
      by (by apply metadata_get_None).
    eexists. split; [reflexivity|]. split.
    + rewrite metadata_get_snoc, Hnone. by rewrite decide_True.
    + intros key' Hne. rewrite metadata_get_snoc.
      destruct (metadata_get md key'); [done|]. by rewrite decide_False.
Qed.

Section StoreProperties.
Context `{PyFloat}.

(** The store that [create_database] builds. *)
Lemma create_database_Ok (places : list Place) (pois : list POI)
    (region now : string) :
  create_database places pois region now =
    Ok {| places_table := executemany_insert [] places;
          places_fts :=
            (λ r : Z * Place,
               (r.1, (place_name r.2, place_display_name r.2,
                      place_street r.2, place_city r.2, place_postcode r.2)))
              <$> executemany_insert [] places;
          pois_table := executemany_insert [] pois;
          pois_rtree := (λ r : Z * POI, r.1) <$> executemany_insert [] pois;
          metadata :=
            [ ("created", now);
              ("place_count", pretty (length places));
              ("poi_count", pretty (length pois));
              ("region", region); ("schema_version", "2") ] |}.
Proof.
  unfold create_database. cbv zeta.
  repeat (rewrite metadata_insert_fresh
            by (apply (bool_decide_unpack _); by vm_compute);
          change (Ok ?x ≫= ?k) with (k x); cbv beta).
  done.
Qed.

(** X19: every record of the batch can be read back from the store by
    its identifier, with all its fields: the records are numbered from 1
    on in the order of the batch, and no other identifier is in use. *)
Theorem store_round_trip (places : list Place) (pois : list POI)
    (region now : string) (store : Store) (id : Z) :
  create_database places pois region now = Ok store →
  (places_table store).*2 = places
  ∧ (pois_table store).*2 = pois
  ∧ table_get (places_table store) id
    = (if bool_decide (1 ≤ id)%Z then places !! Z.to_nat (id - 1) else None)
  ∧ table_get (pois_table store) id
    = (if bool_decide (1 ≤ id)%Z then pois !! Z.to_nat (id - 1) else None).
Proof.
  rewrite create_database_Ok. intros [= <-]. simpl.
  rewrite !executemany_insert_empty, !table_get_zip_seq.
  by rewrite !snd_zip by (by rewrite length_fmap, length_seq).
Qed.

(** X20: the text index and the spatial index follow the two relations
    identifier by identifier: under each identifier the text index holds
    the name, display name, street, city and postcode of the Place with
    that identifier, the spatial index holds exactly the identifiers of
    the POIs, and no identifier occurs twice, so that no insertion into an
    index meets an identifier that is already there. *)
Theorem store_indexes (places : list Place) (pois : list POI)
    (region now : string) (store : Store) (id : Z) :
  create_database places pois region now = Ok store →
  (places_fts store).*1 = (places_table store).*1
  ∧ pois_rtree store = (pois_table store).*1
  ∧ NoDup ((places_fts store).*1)
  ∧ NoDup (pois_rtree store)
  ∧ table_get (places_fts store) id
    = (λ p, (place_name p, place_display_name p, place_street p,
             place_city p, place_postcode p))
        <$> table_get (places_table store) id.
Proof.
  rewrite create_database_Ok. intros [= <-]. simpl.
  assert (((λ r : Z * Place,
              (r.1, (place_name r.2, place_display_name r.2,
                     place_street r.2, place_city r.2, place_postcode r.2)))
             <$> executemany_insert [] places).*1
          = (executemany_insert [] places).*1) as Hfts
    by (by rewrite <- list_fmap_compose).
  assert (∀ A (rows : list A), NoDup ((executemany_insert [] rows).*1))
    as Hids.
  { intros A rows. rewrite executemany_insert_empty.
    rewrite fst_zip by (by rewrite length_fmap, length_seq).
    apply (NoDup_fmap_2 _), NoDup_seq. }
  split; [done|]. split; [done|]. rewrite Hfts.
  split; [done|]. split; [done|].
  apply (table_get_fmap
           (λ p, (place_name p, place_display_name p, place_street p,
                  place_city p, place_postcode p))).
Qed.

Lemma apply_file_readable (entities : list OSMObject) (self : PlaceHandler) :
  forallb entity_readable entities = true →
  ∃ self', apply_file entities self = (Ok tt, self').
Proof.
  revert self. induction entities as [|obj rest IH]; intros self Hall.
  { by eexists. }
  simpl in Hall. apply andb_true_iff in Hall as [Hobj Hrest].
  rewrite apply_file_cons.
  destruct (handle_run obj self) as (r & self' & ? & ? & -> & _ & _ & _ & Hr).
  rewrite Hr by done. by apply IH.
Qed.

(** X21: a build over a stream without unreadable nodes writes a store
    that holds the records of the extraction in their order, with the
    region label and the two counts of its own relations in the metadata;
    when the extraction ends by an exception, the build ends by the same
    exception and no store is written. *)
Theorem build_database_result (entities : list OSMObject)
    (region now : string) :
  let run := apply_file entities (PlaceHandler_init region) in
  (forallb entity_readable entities = true →
     ∃ store,
       build_database entities region now = Ok store
       ∧ (places_table store).*2 = places run.2
       ∧ (pois_table store).*2 = pois run.2
       ∧ metadata_get (metadata store) "region" = Some region
       ∧ metadata_get (metadata store) "place_count"
         = Some (pretty (length (places_table store)))
       ∧ metadata_get (metadata store) "poi_count"
         = Some (pretty (length (pois_table store))))
  ∧ (∀ e, run.1 = Raise e → build_database entities region now = Raise e).
Proof.
  intros run. unfold build_database. fold run. split.
  - intros Hall.
    destruct (apply_file_readable entities (PlaceHandler_init region) Hall)
      as (self' & Hrun).
    unfold run. rewrite Hrun. rewrite create_database_Ok. simpl.
    eexists. split; [reflexivity|]. simpl.
    rewrite !executemany_insert_empty.
    rewrite !snd_zip by (by rewrite length_fmap, length_seq).
    rewrite !length_zip_with, !length_fmap, !length_seq, !Nat.min_id.
    done.
  - intros e He. destruct run as [[[]|e'] self']; simpl in He; [done|].
    congruence.
Qed.

End StoreProperties.

(** ** The report: counting and sorting *)

Lemma dict_set_cons {V} (k k' : string) (v v' : V) (d : list (string * V)) :
  dict_set k v ((k', v') :: d)
  = if decide (k = k') then (k, v) :: d else (k', v') :: dict_set k v d.
Proof. reflexivity. Qed.

Lemma dict_get_cons {V} (k k' : string) (v' def : V) (d : list (string * V)) :
  dict_get ((k', v') :: d) k def
  = if decide (k = k') then v' else dict_get d k def.
Proof. reflexivity. Qed.

Lemma dict_get_set_eq {V} (d : list (string * V)) (k : string) (v def : V) :
  dict_get (dict_set k v d) k def = v.
Proof.
  induction d as [|[k' v'] d IH].
  - change (dict_set k v []) with [(k, v)]. rewrite dict_get_cons.
    by case_decide.
  - rewrite dict_set_cons. case_decide; rewrite dict_get_cons;
      case_decide; congruence.
Qed.

Lemma dict_get_set_ne {V} (d : list (string * V)) (k k' : string)
    (v def : V) :
  k ≠ k' → dict_get (dict_set k v d) k' def = dict_get d k' def.
Proof.
  intros Hne. induction d as [|[k0 v0] d IH].
  - change (dict_set k v []) with [(k, v)]. rewrite dict_get_cons.
    case_decide; congruence.
  - rewrite dict_set_cons. case_decide; rewrite !dict_get_cons;
      repeat case_decide; congruence.
Qed.

Lemma dict_set_keys {V} (d : list (string * V)) (k : string) (v : V) :
  (dict_set k v d).*1 = if decide (k ∈ d.*1) then d.*1 else d.*1 ++ [k].
Proof.
  induction d as [|[k0 v0] d IH].
  - rewrite decide_False by apply not_elem_of_nil. done.
  - rewrite dict_set_cons, (fmap_cons fst (k0, v0)).
    destruct (decide (k = k0)) as [->|Hne].
    + rewrite decide_True by left. done.
    + rewrite fmap_cons, IH. destruct (decide (k ∈ d.*1)) as [Hin|Hnot].
      * rewrite decide_True by (by right). done.
      * rewrite decide_False; [done|]. by intros [?|?]%elem_of_cons.
Qed.

Lemma dict_get_elem {V} (d : list (string * V)) (k : string) (v def : V) :
  NoDup d.*1 → (k, v) ∈ d → dict_get d k def = v.
Proof.
  induction d as [|[k0 v0] d IH]; intros Hnodup Hin.
  { by apply elem_of_nil in Hin. }
  rewrite fmap_cons in Hnodup. apply NoDup_cons in Hnodup as [Hk0 Hnodup].
  rewrite dict_get_cons.
  apply elem_of_cons in Hin as [[= -> ->]|Hin].
  - by case_decide.
  - case_decide as Hk; [|by apply IH].
    subst k0. exfalso. apply Hk0.
    by apply (list_elem_of_fmap_2 fst _ (k, v)).
Qed.

Lemma count_step_get (counts : list (string * Z)) (t t' : string) :
  dict_get (count_step counts t) t' 0%Z
  = (dict_get counts t' 0 + if decide (t = t') then 1 else 0)%Z.
Proof.
  unfold count_step. destruct (decide (t = t')) as [->|Hne].
  - by rewrite dict_get_set_eq.
  - rewrite dict_get_set_ne by done. lia.
Qed.

(** The counting loop over the keys [ts], started from [counts]. *)
Lemma count_fold_get (ts : list string) (counts : list (string * Z))
    (t : string) :
  dict_get (fold_left count_step ts counts) t 0%Z
  = (dict_get counts t 0 + Z.of_nat (length (filter (λ x, x = t) ts)))%Z.
Proof.
  revert counts. induction ts as [|x ts IH]; intros counts; simpl.
  { lia. }
  rewrite IH, count_step_get, filter_cons.
  destruct (decide (x = t)); simpl; lia.
Qed.

Lemma count_fold_keys (ts : list string) (counts : list (string * Z)) :
  NoDup counts.*1 →
  NoDup (fold_left count_step ts counts).*1
  ∧ ∀ t, t ∈ (fold_left count_step ts counts).*1 ↔ t ∈ counts.*1 ∨ t ∈ ts.
Proof.
  revert counts. induction ts as [|x ts IH]; intros counts Hnodup; simpl.
  { split; [done|]. intros t. rewrite elem_of_nil. tauto. }
  assert (NoDup (count_step counts x).*1
          ∧ ∀ t, t ∈ (count_step counts x).*1 ↔ t ∈ counts.*1 ∨ t = x)
    as [Hnodup' Hkeys].
  { unfold count_step. rewrite dict_set_keys.
    destruct (decide (x ∈ counts.*1)) as [Hin|Hnot].
    - split; [done|]. intros t. split; [by left|]. by intros [?| ->].
    - split.
      + apply NoDup_app. split; [done|]. split; [|apply NoDup_singleton].
        intros t Ht ->%list_elem_of_singleton. done.
      + intros t. by rewrite elem_of_app, list_elem_of_singleton. }
  destruct (IH _ Hnodup') as [Hnd Hmem]. split; [done|].
  intros t. rewrite Hmem, Hkeys, elem_of_cons. tauto.
Qed.

(** The items of the dictionary after the counting loop over [ts]: the
    keys that occur, each with the number of its occurrences. *)
Lemma count_fold_items (ts : list string) (t : string) (c : Z) :
  (t, c) ∈ fold_left count_step ts [] ↔
    c = Z.of_nat (length (filter (λ x, x = t) ts)) ∧ (0 < c)%Z.
Proof.
  destruct (count_fold_keys ts [] (NoDup_nil_2)) as [Hnodup Hkeys].
  pose proof (count_fold_get ts [] t) as Hget. simpl in Hget.
  assert (t ∈ ts ↔ (0 < Z.of_nat (length (filter (λ x, x = t) ts)))%Z)
    as Hocc.
  { split.
    - intros Hin.
      assert (t ∈ filter (λ x, x = t) ts) as Hf
        by (by apply list_elem_of_filter).
      destruct (filter _ ts); [by apply elem_of_nil in Hf|simpl; lia].
    - intros Hpos. destruct (filter (λ x, x = t) ts) as [|y l] eqn:Hf.
      { simpl in Hpos. lia. }
      assert (y ∈ filter (λ x, x = t) ts) as Hy by (rewrite Hf; left).
      by apply list_elem_of_filter in Hy as [-> ?]. }
  split.
  - intros Hin. rewrite (dict_get_elem _ t c 0%Z Hnodup Hin) in Hget.
    split; [done|]. rewrite Hget. apply Hocc.
    assert (t ∈ (fold_left count_step ts []).*1) as Ht
      by (by apply (list_elem_of_fmap_2 fst _ (t, c))).
    apply Hkeys in Ht as [Ht|Ht]; [by apply elem_of_nil in Ht|done].
  - intros [-> Hpos]. apply Hocc in Hpos.
    assert (t ∈ (fold_left count_step ts []).*1) as Ht
      by (apply Hkeys; by right).
    apply list_elem_of_fmap in Ht as ([t' c'] & Heq & Hin).
    simpl in Heq. subst t'.
    rewrite (dict_get_elem _ t c' 0%Z Hnodup Hin) in Hget.
    by replace (Z.of_nat (length (filter (λ x, x = t) ts))) with c' by lia.
Qed.

Lemma fold_left_fmap_keys {A} (key : A → string) (records : list A)
    (counts : list (string * Z)) :
  fold_left (λ counts r, count_step counts (key r)) records counts
  = fold_left count_step (key <$> records) counts.
Proof.
  revert counts. induction records as [|r records IH]; intros counts; [done|].
  simpl. apply IH.
Qed.

Lemma length_filter_fmap {A} (key : A → string) (records : list A)
    (t : string) :
  length (filter (λ x, x = t) (key <$> records))
  = length (filter (λ r, key r = t) records).
Proof.
  induction records as [|r records IH]; [done|].
  rewrite fmap_cons, !filter_cons. simpl.
  destruct (decide (key r = t)); simpl; by rewrite IH.
Qed.

Lemma sorted_insert_Permutation (x : string * Z) (l : list (string * Z)) :
  sorted_insert x l ≡ₚ x :: l.
Proof.
  induction l as [|y l IH]; simpl; [done|].
  destruct (_ <=? _)%Z; [done|]. by rewrite IH, Permutation_swap.
Qed.

Lemma sorted_insert_sorted (x : string * Z) (l : list (string * Z)) :
  StronglySorted by_count l → StronglySorted by_count (sorted_insert x l).
Proof.
  induction 1 as [|y l Hsorted IH Hy]; simpl.
  { by repeat constructor. }
  destruct (_ <=? _)%Z eqn:Hle.
  - apply Z.leb_le in Hle. constructor; [by constructor|].
    constructor; [unfold by_count; lia|].
    eapply Forall_impl; [exact Hy|]. unfold by_count. intros z ?. lia.
  - apply Z.leb_gt in Hle. constructor; [done|].
    rewrite sorted_insert_Permutation. constructor; [|done].
    unfold by_count. lia.
Qed.

Lemma sorted_by_count_Permutation (items : list (string * Z)) :
  sorted_by_count items ≡ₚ items.
Proof.
  induction items as [|x items IH]; simpl; [done|].
  by rewrite sorted_insert_Permutation, IH.
Qed.

Lemma sorted_by_count_sorted (items : list (string * Z)) :
  StronglySorted by_count (sorted_by_count items).
Proof.
  induction items as [|x items IH]; simpl; [constructor|].
  by apply sorted_insert_sorted.
Qed.

(** The sort is stable: the items with a given count keep their order. *)
Lemma sorted_insert_stable (x : string * Z) (l : list (string * Z)) (c : Z) :
  filter (λ y, y.2 = c) (sorted_insert x l) = filter (λ y, y.2 = c) (x :: l).
Proof.
  induction l as [|y l IH]; [done|].
  simpl sorted_insert. destruct (_ <=? _)%Z eqn:Hle; [done|].
  apply Z.leb_gt in Hle.
  rewrite (filter_cons _ y), IH, !(filter_cons _ x), (filter_cons _ y).
  destruct (decide (x.2 = c)), (decide (y.2 = c)); try done. lia.
Qed.

Lemma sorted_by_count_stable (items : list (string * Z)) (c : Z) :
  filter (λ y, y.2 = c) (sorted_by_count items) = filter (λ y, y.2 = c) items.
Proof.
  induction items as [|x items IH]; [done|].
  simpl sorted_by_count.
  by rewrite sorted_insert_stable, !(filter_cons _ x), IH.
Qed.

Section ReportProperties.
Context `{PyFloat}.

(** X22: the report counts every record once: [type_counts] lists the
    place types that occur among the places, each once, with the number
    of places of that type, and [poi_counts] does the same for the
    categories of the POIs; a type or category that does not occur is not
    listed. *)
Theorem report_counts (places : list Place) (pois : list POI)
    (t : string) (c : Z) :
  ((t, c) ∈ type_counts places ↔
     c = Z.of_nat (length (filter (λ p, place_type p = t) places))
     ∧ (0 < c)%Z)
  ∧ ((t, c) ∈ poi_counts pois ↔
     c = Z.of_nat (length (filter (λ q, poi_category_ q = t) pois))
     ∧ (0 < c)%Z)
  ∧ NoDup (type_counts places).*1 ∧ NoDup (poi_counts pois).*1.
Proof.
  unfold type_counts, poi_counts.
  rewrite (fold_left_fmap_keys place_type places).
  rewrite (fold_left_fmap_keys poi_category_ pois).
  rewrite !count_fold_items, !length_filter_fmap.
  split; [done|]. split; [done|].
  split; apply count_fold_keys, NoDup_nil_2.
Qed.

(** X23: the report of the place types shows at most ten of them, by
    decreasing count; each one shown is a counted type with its count,
    all types are shown when there are at most ten, and a type left out
    has a count no larger than any type shown. *)
Theorem top_place_types_report (places : list Place) :
  let top := top_place_types places in
  length top ≤ 10
  ∧ StronglySorted by_count top
  ∧ (∀ item, item ∈ top → item ∈ type_counts places)
  ∧ (length (type_counts places) ≤ 10 → top ≡ₚ type_counts places)
  ∧ (∀ item shown, item ∈ type_counts places → item ∉ top →
       shown ∈ top → (item.2 ≤ shown.2)%Z).
Proof.
  unfold top_place_types. set (counts := type_counts places).
  pose proof (sorted_by_count_Permutation counts) as Hperm.
  pose proof (sorted_by_count_sorted counts) as Hsorted.
  rewrite <- (take_drop 10 (sorted_by_count counts)) in Hsorted.
  cbv zeta. split; [|split; [|split; [|split]]].
  - rewrite length_take. lia.
  - by apply StronglySorted_app_1_l in Hsorted.
  - intros item Hin. rewrite <- Hperm.
    rewrite <- (take_drop 10 (sorted_by_count counts)).
    apply elem_of_app. by left.
  - intros Hlen. rewrite take_ge; [done|]. by rewrite Hperm.
  - intros item shown Hitem Hnot Hshown.
    apply (StronglySorted_app_1_elem_of by_count _ _ shown item Hsorted);
      [done|].
    rewrite <- Hperm, <- (take_drop 10 (sorted_by_count counts)) in Hitem.
    by apply elem_of_app in Hitem as [?|?].
Qed.

(** X24: the report of the POI categories shows every counted category
    once, by decreasing count, and categories with the same count in the
    order in which they were first met. *)
Theorem poi_categories_report (pois : list POI) (c : Z) :
  reported_poi_categories pois ≡ₚ poi_counts pois
  ∧ StronglySorted by_count (reported_poi_categories pois)
  ∧ filter (λ item, item.2 = c) (reported_poi_categories pois)
    = filter (λ item, item.2 = c) (poi_counts pois).
Proof.
  split; [apply sorted_by_count_Permutation|].
  split; [apply sorted_by_count_sorted|apply sorted_by_count_stable].
Qed.

End ReportProperties.

(** ** The further properties on concrete entities *)

Section MoreWitnesses.
Local Existing Instance Q_float.

Lemma place_type_never_empty_witness : "cafe" ≠ EmptyString.
Proof. exact (place_type_never_empty cafe_tags "cafe" eq_refl). Defined.

Lemma place_type_other_tags_witness :
  _get_place_type (<["highway" := "residential"]> cafe_tags)
  = _get_place_type cafe_tags.
Proof.
  apply (place_type_other_tags cafe_tags "highway" "residential").
  apply (bool_decide_unpack _). vm_compute. exact I.
Defined.

Lemma poi_category_other_tags_witness :
  poi_category (<["name" := "Corner Cafe"]> cafe_tags)
  = poi_category cafe_tags.
Proof.
  apply (poi_category_other_tags cafe_tags "name" "Corner Cafe").
  intros c v Hin.
  assert (Forall (λ item : string * (string * string), item.2.1 ≠ "name")
            POI_CATEGORIES) as Hall
    by (apply (bool_decide_unpack _); vm_compute; exact I).
  rewrite Forall_forall in Hall. exact (Hall _ Hin eq_refl).
Defined.

Lemma every_category_assigned_witness :
  poi_category {[ "amenity" := "fuel" ]} = Some "GAS_STATION".
Proof.
  apply (every_category_assigned "GAS_STATION" "amenity" "fuel").
  apply (bool_decide_unpack _). vm_compute. exact I.
Defined.

Lemma first_listed_category_wins_witness :
  poi_category airfield_station_tags = Some "AIRPORT".
Proof.
  apply (first_listed_category_wins airfield_station_tags 8
           "AIRPORT" "aeroway" "aerodrome"); [reflexivity..|].
  intros j c k v Hj Hlook.
  do 8 (destruct j as [|j];
        [injection Hlook as <- <- <-; vm_compute; discriminate|]).
  lia.
Defined.

Lemma place_emitted_iff_witness :
  ∃ p, _extract_place (PlaceHandler_init "Virginia")
         (NodeObj (node_with (Ok cafe_tags))) (1 # 2)%Q (3 # 4)%Q
       = Ok (Some p).
Proof.
  apply (place_emitted_iff (PlaceHandler_init "Virginia")
           (NodeObj (node_with (Ok cafe_tags))) cafe_tags
           (1 # 2)%Q (3 # 4)%Q eq_refl).
  split; [right; reflexivity|]. exists "cafe". reflexivity.
Defined.

Lemma emitted_place_fields_witness :
  place_type cafe_place ≠ EmptyString
  ∧ place_display_name cafe_place ≠ EmptyString.
Proof.
  destruct (emitted_place_fields (PlaceHandler_init "Virginia")
              (NodeObj (node_with (Ok cafe_tags))) cafe_tags
              (1 # 2)%Q (3 # 4)%Q cafe_place eq_refl eq_refl)
    as (_ & Htype & Hdisplay & _).
  exact (conj Htype Hdisplay).
Defined.

Lemma poi_emitted_iff_witness :
  ∃ q, _extract_poi (NodeObj (node_with (Ok cafe_tags)))
         (1 # 2)%Q (3 # 4)%Q = Ok (Some q).
Proof.
  destruct (poi_emitted_iff (NodeObj (node_with (Ok cafe_tags))) cafe_tags
              (1 # 2)%Q (3 # 4)%Q eq_refl) as [Hiff _].
  apply Hiff. exists "CAFE", "amenity", "cafe".
  split; [|reflexivity]. apply (bool_decide_unpack _). vm_compute. exact I.
Defined.

Lemma emitted_poi_fields_witness : poi_address cafe_poi = "10, Main St".
Proof.
  exact (proj1 (emitted_poi_fields (NodeObj (node_with (Ok cafe_tags)))
                  cafe_tags (1 # 2)%Q (3 # 4)%Q cafe_poi eq_refl eq_refl)).
Defined.

Lemma way_ignores_invalid_vertices_witness :
  way (way_with [point 1 3; missing_point; point 2 5] (Ok cafe_tags))
    (PlaceHandler_init "Virginia")
  = way (way_with [point 1 3; point 2 5] (Ok cafe_tags))
      (PlaceHandler_init "Virginia").
Proof.
  apply (way_ignores_invalid_vertices
           (way_with [point 1 3; missing_point; point 2 5] (Ok cafe_tags))
           (way_with [point 1 3; point 2 5] (Ok cafe_tags)));
    reflexivity.
Defined.


(** A way with the valid vertices (1, 3) and (2, 5) and one vertex
    without a location yields one Place and one POI, both at (3/2, 4);
    with no valid vertex it yields nothing. *)
Lemma way_coordinates_witness :
  (∃ p q,
     places (way (way_with [point 1 3; missing_point; point 2 5]
                    (Ok cafe_tags)) (PlaceHandler_init "Virginia")).2 = [p]
     ∧ pois (way (way_with [point 1 3; missing_point; point 2 5]
                    (Ok cafe_tags)) (PlaceHandler_init "Virginia")).2 = [q]
     ∧ Qred (place_lat p) = (3 # 2)%Q ∧ Qred (place_lon p) = 4%Q
     ∧ Qred (poi_lat q) = (3 # 2)%Q ∧ Qred (poi_lon q) = 4%Q)
  ∧ way (way_with [missing_point] (Ok cafe_tags))
      (PlaceHandler_init "Virginia")
    = (Ok tt, PlaceHandler_init "Virginia").
Proof.
  split.
  - pose proof (way_coordinates
                  (way_with [point 1 3; missing_point; point 2 5]
                     (Ok cafe_tags)) (PlaceHandler_init "Virginia")) as Hway.
    cbv zeta in Hway.
    destruct Hway as (self' & new_places & new_pois & Hrun & Hp & Hq
                      & Hplaces & Hpois & _ & Hrecords).
    assert (valid_vertices
              (way_with [point 1 3; missing_point; point 2 5]
                 (Ok cafe_tags)) ≠ []) as Hvalid by discriminate.
    destruct (Hrecords Hvalid cafe_tags eq_refl) as [Hplace Hpoi].
    assert (length new_places = 1) as Hone.
    { apply Hplace. split; [right|eexists]; vm_compute; reflexivity. }
    assert (length new_pois = 1) as Hone'.
    { apply Hpoi. eexists. vm_compute. reflexivity. }
    destruct new_places as [|p [|? ?]]; [discriminate Hone| |discriminate Hone].
    destruct new_pois as [|q [|? ?]]; [discriminate Hone'| |discriminate Hone'].
    exists p, q. rewrite Hrun. cbn [snd]. rewrite Hp, Hq.
    split; [reflexivity|]. split; [reflexivity|].
    apply Forall_inv in Hplaces as [-> ->].
    apply Forall_inv in Hpois as [-> ->].
    by vm_compute.
  - pose proof (way_coordinates (way_with [missing_point] (Ok cafe_tags))
                  (PlaceHandler_init "Virginia")) as Hway.
    cbv zeta in Hway.
    destruct Hway as (self' & new_places & new_pois & Hrun & _ & _ & _ & _
                      & Hempty & _).
    destruct (Hempty eq_refl) as (Hsame & _).
    rewrite Hsame in Hrun. exact Hrun.
Defined.

Lemma metadata_insert_lookup_witness :
  (∃ e, metadata_insert [("region", "Virginia")] "region" "Ohio" = Raise e)
  ∧ (∃ md', metadata_insert [("created", "now")] "region" "Virginia" = Ok md'
            ∧ metadata_get md' "region" = Some "Virginia").
Proof.
  split.
  - apply (metadata_insert_lookup [("region", "Virginia")] "region" "Ohio").
    exists "Virginia". reflexivity.
  - destruct (metadata_insert_lookup [("created", "now")] "region" "Virginia")
      as [_ Hnew].
    destruct (Hnew eq_refl) as (md' & Hins & Hget & _).
    exists md'. exact (conj Hins Hget).
Defined.

Lemma store_round_trip_witness :
  table_get (places_table cafe_store) 1 = Some cafe_place
  ∧ table_get (pois_table cafe_store) 2 = None.
Proof.
  split.
  - destruct (store_round_trip [cafe_place] [cafe_poi] "Virginia"
                "2024-05-01T12:00:00" cafe_store 1 eq_refl)
      as (_ & _ & Hplace & _).
    exact Hplace.
  - destruct (store_round_trip [cafe_place] [cafe_poi] "Virginia"
                "2024-05-01T12:00:00" cafe_store 2 eq_refl)
      as (_ & _ & _ & Hpoi).
    exact Hpoi.
Defined.

Lemma store_indexes_witness :
  table_get (places_fts cafe_store) 1
  = Some ("10 Main St", "10 Main St", "Main St", EmptyString, EmptyString)
  ∧ pois_rtree cafe_store = [1%Z].
Proof.
  destruct (store_indexes [cafe_place] [cafe_poi] "Virginia"
              "2024-05-01T12:00:00" cafe_store 1 eq_refl)
    as (_ & Hspatial & _ & _ & Htext).
  exact (conj Htext Hspatial).
Defined.

Lemma build_database_result_witness :
  (∃ store,
     build_database [NodeObj (node_with (Ok cafe_tags))] "Virginia"
       "2024-05-01T12:00:00" = Ok store
     ∧ metadata_get (metadata store) "region" = Some "Virginia")
  ∧ build_database [NodeObj (node_with unreadable)] "Virginia"
      "2024-05-01T12:00:00"
    = Raise (RuntimeError "tags cannot be read").
Proof.
  split.
  - destruct (build_database_result [NodeObj (node_with (Ok cafe_tags))]
                "Virginia" "2024-05-01T12:00:00") as [Hbuilt _].
    destruct (Hbuilt eq_refl) as (store & Hstore & _ & _ & Hregion & _).
    exists store. exact (conj Hstore Hregion).
  - destruct (build_database_result [NodeObj (node_with unreadable)]
                "Virginia" "2024-05-01T12:00:00") as [_ Hraise].
    exact (Hraise _ eq_refl).
Defined.

(** The report for three cafes, two banks and one school. *)
Example report_example :
  let place t := {| place_osm_id := 1; place_osm_type := "node";
                    place_lat := 0%Q; place_lon := 0%Q;
                    place_name := "x"; place_display_name := "x";
                    place_type := t; place_street := EmptyString;
                    place_housenumber := EmptyString;
                    place_city := EmptyString;
                    place_postcode := EmptyString;
                    place_state := EmptyString;
                    place_country := EmptyString |} in
  top_place_types
    (place <$> ["bank"; "cafe"; "school"; "cafe"; "bank"; "cafe"])
  = [("cafe", 3%Z); ("bank", 2%Z); ("school", 1%Z)].
Proof. by vm_compute. Qed.

End MoreWitnesses.

(** ** The manifest *)

Lemma digit_facts (c : ascii) (d : nat) :
  Ascii.is_nat c = Some d →
  int_isspace c = false ∧ Ascii.eqb c "-" = false ∧ Ascii.eqb c "+" = false.
Proof. destruct c as [[] [] [] [] [] [] [] []]; by vm_compute. Qed.

Lemma is_nat_pretty_N_char (x : N) :
  (x < 10)%N → Ascii.is_nat (pretty_N_char x) = Some (N.to_nat x).
Proof.
  intros Hx.
  assert (x = 0 ∨ x = 1 ∨ x = 2 ∨ x = 3 ∨ x = 4 ∨ x = 5 ∨ x = 6 ∨ x = 7
          ∨ x = 8 ∨ x = 9)%N as Hcases by lia.
  repeat destruct Hcases as [->|Hcases]; try done. by subst.
Qed.

(** The strings of digits. *)
Lemma pretty_N_go_digits (x : N) (s : string) :
  Forall (λ c, is_Some (Ascii.is_nat c)) (list_ascii_of_string s) →
  Forall (λ c, is_Some (Ascii.is_nat c))
    (list_ascii_of_string (pretty_N_go x s)).
Proof.
  revert s. induction (N.lt_wf_0 x) as [x _ IH]; intros s Hs.
  destruct (decide (x = 0)%N) as [->|Hx]; [by rewrite pretty_N_go_0|].
  rewrite pretty_N_go_step by lia. apply IH.
  - apply N.div_lt; lia.
  - simpl. constructor; [|done].
    rewrite is_nat_pretty_N_char by (apply N.mod_lt; lia). by eexists.
Qed.

Lemma int_digits_pretty_N_go (x : N) (s : string) (after_digit : bool) :
  (0 < x)%N →
  int_digits (pretty_N_go x s) 0 after_digit
  = int_digits s (Z.of_N x) true.
Proof.
  revert s after_digit.
  induction (N.lt_wf_0 x) as [x _ IH]; intros s after_digit Hx.
  rewrite pretty_N_go_step by done.
  pose proof (N.mod_lt x 10 ltac:(lia)) as Hmod.
  pose proof (N.div_mod x 10 ltac:(lia)) as Hdiv.
  destruct (decide (x `div` 10 = 0)%N) as [Hzero|Hpos].
  - rewrite Hzero, pretty_N_go_0. simpl.
    rewrite is_nat_pretty_N_char by done. f_equal. lia.
  - rewrite IH by (try apply N.div_lt; lia). simpl.
    rewrite is_nat_pretty_N_char by done. f_equal. lia.
Qed.

Lemma int_lstrip_id (s : string) :
  Forall (λ c, int_isspace c = false) (list_ascii_of_string s) →
  int_lstrip s = s.
Proof.
  destruct s as [|c s]; [done|]. simpl.
  intros [Hc _]%Forall_cons. by rewrite Hc.
Qed.

Lemma String_rev_involutive (s : string) : String.rev (String.rev s) = s.
Proof.
  rewrite <- (string_of_list_ascii_of_string (String.rev (String.rev s))).
  rewrite !chars_rev, reverse_involutive.
  apply string_of_list_ascii_of_string.
Qed.

Lemma int_strip_id (s : string) :
  Forall (λ c, int_isspace c = false) (list_ascii_of_string s) →
  int_strip s = s.
Proof.
  intros Hs. unfold int_strip. rewrite (int_lstrip_id s Hs).
  rewrite int_lstrip_id; [apply String_rev_involutive|].
  rewrite chars_rev. by apply Forall_reverse.
Qed.

(** A number below [10 ^ k] is written with at most [k] digits. *)
Lemma count_digits_pretty_N_go (k x : N) (s : string) :
  (Z.of_N x < 10 ^ Z.of_N k)%Z →
  (count_digits (pretty_N_go x s) ≤ count_digits s + Z.of_N k)%Z.
Proof.
  revert x s. induction k as [|k IH] using N.peano_ind; intros x s Hx.
  { replace x with 0%N by (change (10 ^ Z.of_N 0)%Z with 1%Z in Hx; lia).
    rewrite pretty_N_go_0. lia. }
  destruct (decide (x = 0)%N) as [->|Hpos].
  { rewrite pretty_N_go_0. lia. }
  rewrite pretty_N_go_step by lia.
  rewrite N2Z.inj_succ, Z.pow_succ_r in Hx by lia.
  etrans; [apply IH|].
  - rewrite N2Z.inj_div. apply Z.div_lt_upper_bound; [lia|exact Hx].
  - cbn [count_digits].
    rewrite is_nat_pretty_N_char by (apply N.mod_lt; lia). lia.
Qed.

(** [int(str(n)) = n], for a number that [int] converts. *)
Lemma py_int_pretty (n : nat) :
  (Z.of_nat n < 10 ^ int_max_str_digits)%Z →
  py_int (pretty n) = Some (Z.of_nat n).
Proof.
  intros Hn. unfold pretty, pretty_nat, pretty, pretty_N.
  destruct (decide (N.of_nat n = 0)%N) as [Hzero|Hpos].
  { by replace n with 0 by lia. }
  assert (Forall (λ c, is_Some (Ascii.is_nat c))
            (list_ascii_of_string (pretty_N_go (N.of_nat n) EmptyString)))
    as Hdigits by (by apply pretty_N_go_digits).
  assert (count_digits (pretty_N_go (N.of_nat n) EmptyString)
          ≤ int_max_str_digits)%Z as Hcount.
  { etrans; [apply (count_digits_pretty_N_go 4300)|done].
    by rewrite nat_N_Z. }
  unfold py_int. rewrite int_strip_id.
  2: { eapply Forall_impl; [exact Hdigits|].
       intros c [d Hd]. by destruct (digit_facts c d Hd). }
  pose proof (int_digits_pretty_N_go (N.of_nat n) EmptyString false
                ltac:(lia)) as Hint.
  destruct (pretty_N_go (N.of_nat n) EmptyString) as [|c digits];
    [done|].
  apply Forall_cons in Hdigits as [[d Hd] _].
  destruct (digit_facts c d Hd) as (_ & -> & ->).
  unfold int_literal. apply Z.ltb_ge in Hcount. rewrite Hcount, Hint.
  simpl. f_equal. lia.
Qed.

Lemma manifest_region_filename (db : Database) :
  entry_filename (manifest_region db) = db_filename db.
Proof.
  unfold manifest_region. by destruct (read_metadata _ _) as [[? ?] ?].
Qed.

Lemma sorted_insert_db_Permutation (x : Database) (l : list Database) :
  sorted_insert_db x l ≡ₚ x :: l.
Proof.
  induction l as [|y l IH]; simpl; [done|].
  destruct (String.leb _ _); [done|]. by rewrite IH, Permutation_swap.
Qed.

Lemma sorted_databases_Permutation (databases : list Database) :
  sorted_databases databases ≡ₚ databases.
Proof.
  induction databases as [|x l IH]; simpl; [done|].
  by rewrite sorted_insert_db_Permutation, IH.
Qed.

Lemma sorted_insert_db_sorted (x : Database) (l : list Database) :
  StronglySorted (λ a b, String.le (db_filename a) (db_filename b)) l →
  StronglySorted (λ a b, String.le (db_filename a) (db_filename b))
    (sorted_insert_db x l).
Proof.
  induction 1 as [|y l Hsorted IH Hy]; simpl.
  { by repeat constructor. }
  destruct (String.leb (db_filename x) (db_filename y)) eqn:Hle.
  - apply Is_true_true in Hle. constructor; [by constructor|].
    constructor; [done|].
    eapply Forall_impl; [exact Hy|]. intros z Hz. simpl in Hz.
    by trans (db_filename y).
  - constructor; [done|].
    rewrite sorted_insert_db_Permutation. constructor; [|done].
    destruct (total String.le (db_filename x) (db_filename y)) as [Hxy|Hyx];
      [|done].
    apply Is_true_true in Hxy.
    unfold String.le in Hxy. congruence.
Qed.

(** X25: the manifest lists every database of the directory once, in
    the order of the file names. *)
Theorem manifest_lists_databases (databases : list Database) :
  manifest_regions (build_manifest databases)
    ≡ₚ manifest_region <$> databases
  ∧ StronglySorted by_filename (manifest_regions (build_manifest databases)).
Proof.
  unfold build_manifest. simpl. split.
  - by rewrite sorted_databases_Permutation.
  - apply (StronglySorted_fmap manifest_region
             (λ a b, String.le (db_filename a) (db_filename b)) by_filename).
    + intros a b Hab. unfold by_filename.
      by rewrite !manifest_region_filename.
    + induction databases as [|x l IH]; simpl; [constructor|].
      by apply sorted_insert_db_sorted.
Qed.

(** X26: a database whose metadata cannot be read is listed with both
    counts 0 and the stem of its file as name. A [place_count] that is no
    integer ends the reading: the entry then has the count 0 for the POIs
    and the stem as name, whatever the stored [poi_count] and [region]
    are; with a readable [place_count] and a [poi_count] that is no
    integer, the place count is kept and the name is again the stem. *)
Theorem manifest_region_fallbacks (db : Database)
    (md : list (string * string)) (value : string) :
  (db_metadata db = None →
     entry_place_count (manifest_region db) = 0%Z
     ∧ entry_poi_count (manifest_region db) = 0%Z
     ∧ entry_name (manifest_region db) = db_stem db)
  ∧ (db_metadata db = Some md →
     metadata_get md "place_count" = Some value → py_int value = None →
     entry_place_count (manifest_region db) = 0%Z
     ∧ entry_poi_count (manifest_region db) = 0%Z
     ∧ entry_name (manifest_region db) = db_stem db)
  ∧ (db_metadata db = Some md →
     metadata_get md "place_count" = None →
     metadata_get md "poi_count" = Some value → py_int value = None →
     entry_place_count (manifest_region db) = 0%Z
     ∧ entry_poi_count (manifest_region db) = 0%Z
     ∧ entry_name (manifest_region db) = db_stem db).
Proof.
  unfold manifest_region, read_metadata. split; [|split].
  - by intros ->.
  - by intros -> -> ->.
  - by intros -> -> -> ->.
Qed.

Section ManifestProperties.
Context `{PyFloat}.

(** X27: the manifest reports, for a database that [create_database]
    wrote, the number of Places and the number of POIs of the batch and its
    region label as name: the counts written as text are read back as the
    same numbers. The two numbers are taken to be such as [int] converts,
    that is, of at most 4300 digits. *)
Theorem manifest_region_of_store (places : list Place) (pois : list POI)
    (region now stem : string) (size : Z) (store : Store) :
  (Z.of_nat (length places) < 10 ^ int_max_str_digits)%Z →
  (Z.of_nat (length pois) < 10 ^ int_max_str_digits)%Z →
  create_database places pois region now = Ok store →
  manifest_region (database_of stem size store) =
    {| entry_id := stem;
       entry_name := region;
       entry_size := size;
       entry_place_count := Z.of_nat (length places);
       entry_poi_count := Z.of_nat (length pois);
       entry_filename := stem +:+ ".db" |}.
Proof.
  intros Hplaces Hpois. rewrite create_database_Ok. intros [= <-].
  unfold manifest_region, read_metadata, database_of.
  cbn [db_metadata db_stem db_size db_filename metadata]. cbv zeta.
  assert (metadata_get
            [ ("created", now); ("place_count", pretty (length places));
              ("poi_count", pretty (length pois)); ("region", region);
              ("schema_version", "2") ] "place_count"
          = Some (pretty (length places))) as -> by done.
  assert (metadata_get
            [ ("created", now); ("place_count", pretty (length places));
              ("poi_count", pretty (length pois)); ("region", region);
              ("schema_version", "2") ] "poi_count"
          = Some (pretty (length pois))) as -> by done.
  assert (metadata_get
            [ ("created", now); ("place_count", pretty (length places));
              ("poi_count", pretty (length pois)); ("region", region);
              ("schema_version", "2") ] "region"
          = Some region) as -> by done.
  by rewrite !py_int_pretty.
Qed.

End ManifestProperties.

(** ** The manifest on concrete databases *)

Section ManifestWitnesses.
Local Existing Instance Q_float.

Lemma manifest_region_of_store_witness :
  manifest_region (database_of "virginia" 4096 cafe_store) =
    {| entry_id := "virginia"; entry_name := "Virginia";
       entry_size := 4096; entry_place_count := 1; entry_poi_count := 1;
       entry_filename := "virginia.db" |}.
Proof.
  apply (manifest_region_of_store [cafe_place] [cafe_poi] "Virginia"
           "2024-05-01T12:00:00" "virginia" 4096 cafe_store);
    reflexivity.
Defined.

Lemma manifest_region_fallbacks_witness :
  entry_name
    (manifest_region
       {| db_stem := "notes"; db_filename := "notes.db"; db_size := 12;
          db_metadata := None |}) = "notes"
  ∧ entry_poi_count
      (manifest_region
         {| db_stem := "ohio"; db_filename := "ohio.db"; db_size := 4096;
            db_metadata :=
              Some [ ("place_count", "many"); ("poi_count", "7");
                     ("region", "Ohio") ] |}) = 0%Z
  ∧ entry_name
      (manifest_region
         {| db_stem := "iowa"; db_filename := "iowa.db"; db_size := 4096;
            db_metadata :=
              Some [ ("place_count", String "028" "42"); ("poi_count", "7");
                     ("region", "Iowa") ] |}) = "iowa".
Proof.
  split; [|split].
  - destruct (manifest_region_fallbacks
                {| db_stem := "notes"; db_filename := "notes.db";
                   db_size := 12; db_metadata := None |} [] EmptyString)
      as [Hnone _].
    destruct (Hnone eq_refl) as (_ & _ & Hname). exact Hname.
  - destruct (manifest_region_fallbacks
                {| db_stem := "ohio"; db_filename := "ohio.db";
                   db_size := 4096;
                   db_metadata :=
                     Some [ ("place_count", "many"); ("poi_count", "7");
                            ("region", "Ohio") ] |}
                [ ("place_count", "many"); ("poi_count", "7");
                  ("region", "Ohio") ] "many")
      as (_ & Hbad & _).
    destruct (Hbad eq_refl eq_refl eq_refl) as (_ & Hpois & _). exact Hpois.
  - destruct (manifest_region_fallbacks
                {| db_stem := "iowa"; db_filename := "iowa.db";
                   db_size := 4096;
                   db_metadata :=
                     Some [ ("place_count", String "028" "42");
                            ("poi_count", "7"); ("region", "Iowa") ] |}
                [ ("place_count", String "028" "42"); ("poi_count", "7");
                  ("region", "Iowa") ] (String "028" "42"))
      as (_ & Hbad & _).
    destruct (Hbad eq_refl eq_refl eq_refl) as (_ & _ & Hname). exact Hname.
Defined.

(** What [int] accepts. *)
Example py_int_examples :
  py_int "42" = Some 42%Z ∧ py_int " 42 " = Some 42%Z
  ∧ py_int "-7" = Some (-7)%Z ∧ py_int "+7" = Some 7%Z
  ∧ py_int "1_000" = Some 1000%Z ∧ py_int "007" = Some 7%Z
  ∧ py_int EmptyString = None ∧ py_int "4 2" = None
  ∧ py_int "1__0" = None ∧ py_int "_1" = None ∧ py_int "1_" = None
  ∧ py_int "- 1" = None ∧ py_int "12a" = None.
Proof. by vm_compute. Qed.

(** The whitespace of [int] is not that of [str.strip]: the separator 28
    is stripped by the one and refused by the other, the no-break space
    160 is skipped by both. *)
Example py_int_whitespace :
  Py.strip (String "028" "42") = "42"
  ∧ py_int (String "028" "42") = None
  ∧ py_int ("42" +:+ String "031" EmptyString) = None
  ∧ py_int (String "160" "42") = Some 42%Z
  ∧ py_int (String "133" "42" +:+ String "009" EmptyString) = Some 42%Z.
Proof. by vm_compute. Qed.

(** A literal of 4300 digits is converted, one of 4301 is not, leading
    zeros included; underscores and the sign do not count. *)
Example py_int_digit_limit :
  let ones (n : nat) := string_of_list_ascii (replicate n "1"%char) in
  is_Some (py_int (ones 4300))
  ∧ py_int (ones 4301) = None
  ∧ py_int (String "0" (ones 4300)) = None
  ∧ is_Some (py_int ("-" +:+ ones 2000 +:+ "_" +:+ ones 2300)).
Proof.
  cbv zeta. repeat split; try (by vm_compute).
  - apply (bool_decide_unpack _). by vm_compute.
  - apply (bool_decide_unpack _). by vm_compute.
Qed.

End ManifestWitnesses.
